(** * The token cache of the CSS-in-JS runtime ([hooks/useCacheToken])

    A shallow embedding of the module that derives theme tokens, keeps the
    process-wide usage count of theme keys, injects the CSS-variable style
    of a cache entry, extracts it again for server rendering, and hands
    consumers a polled copy of the derived token.

    Conventions of the embedding:
    - a JavaScript object is an association list in property insertion
      order (the order is what the serialisers of [../util] see); objects
      are values: a spread is a copy, a property assignment yields the
      updated object, and the callbacks of the caller are functions of
      their arguments;
    - numbers that the module computes with (usage counts, priorities,
      milliseconds) are integers, numbers inside tokens are rationals;
    - the module-level [let]/[const] bindings and the global [document] are
      the fields of one record, [Globals], threaded through every function
      that reads or writes them;
    - a callback supplied by the caller (theme derivation, [formatToken],
      [getComputedToken]) returns [None] when it throws;
    - a hook or component body is the function from the globals to the new
      globals and a [Render]: what it returns and the timers it asks for;
    - functions imported from modules that are not part of this file
      ([hash], [token2key], [flattenToken], [transformToken], [toStyleStr],
      [updateCSS], [useGlobalCache]), [process.env.NODE_ENV] and the
      constants of [../StyleContext] are section variables;
      [memoResult(f, deps)] is the call [f()]. *)

From Stdlib Require Import ZArith QArith.
From stdpp Require Import gmap strings list fin_maps pretty.
Local Open Scope Z_scope.
Set Warnings "-register-all".
Set Default Proof Using "Type".

(** Closes a decidable goal on closed terms by evaluation. *)
Ltac by_computation := apply (bool_decide_unpack _); vm_compute; exact I.

(** ** JavaScript values and objects *)

Inductive JsValue : Type :=
| VUndef
| VBool (b : bool)
| VNum (q : Q)
| VStr (s : string)
| VObj (fields : list (string * JsValue)).

(** An object: its own enumerable properties, in insertion order. *)
Abbreviation Obj := (list (string * JsValue)).

(** [o[k]]: the property when present. *)
Fixpoint obj_lookup (o : Obj) (k : string) : option JsValue :=
  match o with
  | [] => None
  | (k', v) :: o' => if decide (k' = k) then Some v else obj_lookup o' k
  end.

(** [o.k] as JavaScript reads it: [undefined] for a missing property. *)
Definition obj_get (o : Obj) (k : string) : JsValue :=
  default VUndef (obj_lookup o k).

(** [o.k = v]: an existing property keeps its position, a new one is
    appended. *)
Fixpoint obj_set (o : Obj) (k : string) (v : JsValue) : Obj :=
  match o with
  | [] => [(k, v)]
  | (k', v') :: o' =>
      if decide (k' = k) then (k, v) :: o' else (k', v') :: obj_set o' k v
  end.

(** [Object.assign(target, src)]. *)
Definition obj_assign (target src : Obj) : Obj :=
  foldl (λ acc kv, obj_set acc kv.1 kv.2) target src.

(** [Object.assign(target, ...srcs)]. *)
Definition obj_assign_all (target : Obj) (srcs : list Obj) : Obj :=
  foldl obj_assign target srcs.

(** [{ ...a }] and [{ ...a, ...b }]. *)
Definition obj_spread (a : Obj) : Obj := obj_assign [] a.
Definition obj_spread2 (a b : Obj) : Obj := obj_assign (obj_assign [] a) b.

(** A property the types of this module declare as [string], as a
    template literal renders it. *)
Definition obj_get_string (o : Obj) (k : string) : string :=
  match obj_lookup o k with
  | Some (VStr s) => s
  | _ => "undefined"
  end.

(** Property names are distinct in every object the runtime builds. *)
Definition obj_wf (o : Obj) : Prop := NoDup o.*1.

(** ** Types of the module *)

(** The [Theme] entity: a stable id and the opaque derivation. *)
Record Theme : Type := {
  theme_id : JsValue;
  getDerivativeToken : Obj → option Obj;
}.

(** The [cssVar] member of [Option]. *)
Record CssVar : Type := {
  cv_prefix : option string;
  cv_unitless : option Obj;
  cv_ignore : option Obj;
  cv_preserve : option Obj;
  cv_key : option string;
}.

(** The config object handed to [transformToken]. *)
Record TransformConfig : Type := {
  tc_prefix : option string;
  tc_ignore : option Obj;
  tc_unitless : option Obj;
  tc_preserve : option Obj;
}.

(** [Option<DerivativeToken, DesignToken>]; every member is optional. *)
Record HookOption : Type := {
  opt_salt : option string;
  opt_override : option Obj;
  opt_formatToken : option (Obj → option Obj);
  opt_getComputedToken : option (Obj → Obj → Theme → option Obj);
  opt_cssVar : option CssVar;
}.

(** [TokenCacheValue]: the five-element tuple
    [[token, hashId, realToken, cssVarStr, cssVarKey]]. *)
Record TokenCacheValue : Type := {
  tcv_token : Obj;
  tcv_hashId : string;
  tcv_realToken : Obj;
  tcv_cssVarStr : string;
  tcv_cssVarKey : string;
}.

(** The options of [extract]. *)
Record ExtractOptions : Type := {
  plain : option bool;
}.

(** What [useContext(StyleContext)] yields: [cache.instanceId] and
    [container]. *)
Record StyleContextValue : Type := {
  instanceId : string;
  container : option string;
}.

(** A [<style>] element of the document: its attributes, its text and the
    [CSS_IN_JS_INSTANCE] property the runtime hangs on it. *)
Record StyleEl : Type := {
  el_attrs : gmap string string;
  el_css : string;
  el_instance : option string;
}.

(** The options object the injection effect passes to [updateCSS]. *)
Record UpdateOptions : Type := {
  uo_mark : string;
  uo_prepend : string;
  uo_attachTo : option string;
  uo_priority : Z;
}.

(** One call [updateCSS(css, key, options)]. *)
Record UpdateCSSCall : Type := {
  call_css : string;
  call_key : string;
  call_options : UpdateOptions;
}.

(** One element of the [...args] of the default export.  [arg_ref] is the
    identity [===] compares. *)
Inductive ArgVal : Type :=
| ArgTheme (t : Theme)
| ArgTokens (ts : list Obj)
| ArgOption (o : HookOption)
| ArgOther (v : JsValue).

Record Arg : Type := {
  arg_ref : positive;
  arg_val : ArgVal;
}.

(** The React state setters that the timers of this module call with
    [Math.random()]. *)
Inductive Setter : Type :=
| SetArgUpdate
| SetCacheUpdate
| SetRenderNonce.

Inductive Timer : Type :=
| SetTimeout (ms : Z) (s : Setter)
| SetInterval (ms : Z) (s : Setter).

(** What one call of a hook or component body amounts to: the value it
    returns, the timers it starts while rendering and the timers its
    mount effect ([useEffect(..., [])]) starts after the first commit. *)
Record Render (A : Type) : Type := {
  rendered : A;
  renderTimers : list Timer;
  mountTimers : list Timer;
}.
Arguments rendered {A} _.
Arguments renderTimers {A} _.
Arguments mountTimers {A} _.

(** The module-level bindings and the global [document]
    ([None]: [typeof document === 'undefined']). *)
Record Globals : Type := {
  tokenKeys : gmap string Z;
  document : option (list StyleEl);
  cacheArgs : option (list Arg);
  setArgUpdate : option Setter;
  cachedToken : TokenCacheValue;
}.

Definition with_tokenKeys (tk : gmap string Z) (g : Globals) : Globals :=
  {| tokenKeys := tk; document := document g; cacheArgs := cacheArgs g;
     setArgUpdate := setArgUpdate g; cachedToken := cachedToken g |}.

Definition with_document (d : option (list StyleEl)) (g : Globals) : Globals :=
  {| tokenKeys := tokenKeys g; document := d; cacheArgs := cacheArgs g;
     setArgUpdate := setArgUpdate g; cachedToken := cachedToken g |}.

Definition with_cacheArgs (a : option (list Arg)) (g : Globals) : Globals :=
  {| tokenKeys := tokenKeys g; document := document g; cacheArgs := a;
     setArgUpdate := setArgUpdate g; cachedToken := cachedToken g |}.

Definition with_setArgUpdate (s : option Setter) (g : Globals) : Globals :=
  {| tokenKeys := tokenKeys g; document := document g; cacheArgs := cacheArgs g;
     setArgUpdate := s; cachedToken := cachedToken g |}.

Definition with_cachedToken (c : TokenCacheValue) (g : Globals) : Globals :=
  {| tokenKeys := tokenKeys g; document := document g; cacheArgs := cacheArgs g;
     setArgUpdate := setArgUpdate g; cachedToken := c |}.

(** ** Constants of the module *)

Definition EMPTY_OVERRIDE : Obj := [].
Definition TOKEN_THRESHOLD : Z := 0.
Definition TOKEN_PREFIX : string := "token".
Definition rerenderTime : Z := 1000.

(** [process.env.NODE_ENV !== 'production' ? ... : 'css']. *)
Definition hashPrefix (NODE_ENV : option string) : string :=
  if decide (NODE_ENV ≠ Some "production")
  then "css-dev-only-do-not-override"
  else "css".

(** ** The initial value of [cachedToken]

    The literal the module assigns to [cachedToken]: a derived token, its
    hash identifier, the real token and two empty strings. *)

Definition dq : string := String (Ascii.ascii_of_nat 34) EmptyString.
Definition nl : string := String (Ascii.ascii_of_nat 10) EmptyString.

Definition fixture_token : Obj :=
  [
    ("blue", VStr "#1677ff");
    ("purple", VStr "#722ED1");
    ("cyan", VStr "#13C2C2");
    ("green", VStr "#52C41A");
    ("magenta", VStr "#EB2F96");
    ("pink", VStr "#eb2f96");
    ("red", VStr "#F5222D");
    ("orange", VStr "#FA8C16");
    ("yellow", VStr "#FADB14");
    ("volcano", VStr "#FA541C");
    ("geekblue", VStr "#2F54EB");
    ("gold", VStr "#FAAD14");
    ("lime", VStr "#A0D911");
    ("colorPrimary", VStr "#0c91bc");
    ("colorSuccess", VStr "#49aa19");
    ("colorWarning", VStr "#d89614");
    ("colorError", VStr "#dc4446");
    ("colorInfo", VStr "#1668dc");
    ("colorLink", VStr "#1668dc");
    ("colorTextBase", VStr "#fff");
    ("colorBgBase", VStr "#23232e");
    ("fontFamily", VStr ("ui-monospace, SFMono-Regular, Menlo, Monaco, Consolas, " +:+ dq +:+ "Liberation Mono" +:+ dq +:+ ", " +:+ dq +:+ "Courier New" +:+ dq +:+ ", monospace"));
    ("fontFamilyCode", VStr "'SFMono-Regular', Consolas, 'Liberation Mono', Menlo, Courier, monospace");
    ("fontSize", VNum 12);
    ("lineWidth", VNum 1);
    ("lineType", VStr "solid");
    ("motionUnit", VNum 0.1);
    ("motionBase", VNum 0);
    ("motionEaseOutCirc", VStr "cubic-bezier(0.08, 0.82, 0.17, 1)");
    ("motionEaseInOutCirc", VStr "cubic-bezier(0.78, 0.14, 0.15, 0.86)");
    ("motionEaseOut", VStr "cubic-bezier(0.215, 0.61, 0.355, 1)");
    ("motionEaseInOut", VStr "cubic-bezier(0.645, 0.045, 0.355, 1)");
    ("motionEaseOutBack", VStr "cubic-bezier(0.12, 0.4, 0.29, 1.46)");
    ("motionEaseInBack", VStr "cubic-bezier(0.71, -0.46, 0.88, 0.6)");
    ("motionEaseInQuint", VStr "cubic-bezier(0.755, 0.05, 0.855, 0.06)");
    ("motionEaseOutQuint", VStr "cubic-bezier(0.23, 1, 0.32, 1)");
    ("borderRadius", VNum 6);
    ("sizeUnit", VNum 4);
    ("sizeStep", VNum 4);
    ("sizePopupArrow", VNum 16);
    ("controlHeight", VNum 28);
    ("zIndexBase", VNum 0);
    ("zIndexPopupBase", VNum 1000);
    ("opacityImage", VNum 1);
    ("wireframe", VBool false);
    ("motion", VBool false);
    ("colorText", VStr "#ffffffa6");
    ("colorTextSecondary", VStr "#ffffff73");
    ("colorTextDisabled", VStr "#ffffff40");
    ("colorIcon", VStr "#ffffffa6");
    ("colorIconHover", VStr "#ffffffd9");
    ("colorBorder", VStr "#17171f");
    ("fontSizeLG", VNum 16);
    ("blue-1", VStr "#111a2c");
    ("blue1", VStr "#111a2c");
    ("blue-2", VStr "#112545");
    ("blue2", VStr "#112545");
    ("blue-3", VStr "#15325b");
    ("blue3", VStr "#15325b");
    ("blue-4", VStr "#15417e");
    ("blue4", VStr "#15417e");
    ("blue-5", VStr "#1554ad");
    ("blue5", VStr "#1554ad");
    ("blue-6", VStr "#1668dc");
    ("blue6", VStr "#1668dc");
    ("blue-7", VStr "#3c89e8");
    ("blue7", VStr "#3c89e8");
    ("blue-8", VStr "#65a9f3");
    ("blue8", VStr "#65a9f3");
    ("blue-9", VStr "#8dc5f8");
    ("blue9", VStr "#8dc5f8");
    ("blue-10", VStr "#b7dcfa");
    ("blue10", VStr "#b7dcfa");
    ("purple-1", VStr "#1a1325");
    ("purple1", VStr "#1a1325");
    ("purple-2", VStr "#24163a");
    ("purple2", VStr "#24163a");
    ("purple-3", VStr "#301c4d");
    ("purple3", VStr "#301c4d");
    ("purple-4", VStr "#3e2069");
    ("purple4", VStr "#3e2069");
    ("purple-5", VStr "#51258f");
    ("purple5", VStr "#51258f");
    ("purple-6", VStr "#642ab5");
    ("purple6", VStr "#642ab5");
    ("purple-7", VStr "#854eca");
    ("purple7", VStr "#854eca");
    ("purple-8", VStr "#ab7ae0");
    ("purple8", VStr "#ab7ae0");
    ("purple-9", VStr "#cda8f0");
    ("purple9", VStr "#cda8f0");
    ("purple-10", VStr "#ebd7fa");
    ("purple10", VStr "#ebd7fa");
    ("cyan-1", VStr "#112123");
    ("cyan1", VStr "#112123");
    ("cyan-2", VStr "#113536");
    ("cyan2", VStr "#113536");
    ("cyan-3", VStr "#144848");
    ("cyan3", VStr "#144848");
    ("cyan-4", VStr "#146262");
    ("cyan4", VStr "#146262");
    ("cyan-5", VStr "#138585");
    ("cyan5", VStr "#138585");
    ("cyan-6", VStr "#13a8a8");
    ("cyan6", VStr "#13a8a8");
    ("cyan-7", VStr "#33bcb7");
    ("cyan7", VStr "#33bcb7");
    ("cyan-8", VStr "#58d1c9");
    ("cyan8", VStr "#58d1c9");
    ("cyan-9", VStr "#84e2d8");
    ("cyan9", VStr "#84e2d8");
    ("cyan-10", VStr "#b2f1e8");
    ("cyan10", VStr "#b2f1e8");
    ("green-1", VStr "#162312");
    ("green1", VStr "#162312");
    ("green-2", VStr "#1d3712");
    ("green2", VStr "#1d3712");
    ("green-3", VStr "#274916");
    ("green3", VStr "#274916");
    ("green-4", VStr "#306317");
    ("green4", VStr "#306317");
    ("green-5", VStr "#3c8618");
    ("green5", VStr "#3c8618");
    ("green-6", VStr "#49aa19");
    ("green6", VStr "#49aa19");
    ("green-7", VStr "#6abe39");
    ("green7", VStr "#6abe39");
    ("green-8", VStr "#8fd460");
    ("green8", VStr "#8fd460");
    ("green-9", VStr "#b2e58b");
    ("green9", VStr "#b2e58b");
    ("green-10", VStr "#d5f2bb");
    ("green10", VStr "#d5f2bb");
    ("magenta-1", VStr "#291321");
    ("magenta1", VStr "#291321");
    ("magenta-2", VStr "#40162f");
    ("magenta2", VStr "#40162f");
    ("magenta-3", VStr "#551c3b");
    ("magenta3", VStr "#551c3b");
    ("magenta-4", VStr "#75204f");
    ("magenta4", VStr "#75204f");
    ("magenta-5", VStr "#a02669");
    ("magenta5", VStr "#a02669");
    ("magenta-6", VStr "#cb2b83");
    ("magenta6", VStr "#cb2b83");
    ("magenta-7", VStr "#e0529c");
    ("magenta7", VStr "#e0529c");
    ("magenta-8", VStr "#f37fb7");
    ("magenta8", VStr "#f37fb7");
    ("magenta-9", VStr "#f8a8cc");
    ("magenta9", VStr "#f8a8cc");
    ("magenta-10", VStr "#fad2e3");
    ("magenta10", VStr "#fad2e3");
    ("pink-1", VStr "#291321");
    ("pink1", VStr "#291321");
    ("pink-2", VStr "#40162f");
    ("pink2", VStr "#40162f");
    ("pink-3", VStr "#551c3b");
    ("pink3", VStr "#551c3b");
    ("pink-4", VStr "#75204f");
    ("pink4", VStr "#75204f");
    ("pink-5", VStr "#a02669");
    ("pink5", VStr "#a02669");
    ("pink-6", VStr "#cb2b83");
    ("pink6", VStr "#cb2b83");
    ("pink-7", VStr "#e0529c");
    ("pink7", VStr "#e0529c");
    ("pink-8", VStr "#f37fb7");
    ("pink8", VStr "#f37fb7");
    ("pink-9", VStr "#f8a8cc");
    ("pink9", VStr "#f8a8cc");
    ("pink-10", VStr "#fad2e3");
    ("pink10", VStr "#fad2e3");
    ("red-1", VStr "#2a1215");
    ("red1", VStr "#2a1215");
    ("red-2", VStr "#431418");
    ("red2", VStr "#431418");
    ("red-3", VStr "#58181c");
    ("red3", VStr "#58181c");
    ("red-4", VStr "#791a1f");
    ("red4", VStr "#791a1f");
    ("red-5", VStr "#a61d24");
    ("red5", VStr "#a61d24");
    ("red-6", VStr "#d32029");
    ("red6", VStr "#d32029");
    ("red-7", VStr "#e84749");
    ("red7", VStr "#e84749");
    ("red-8", VStr "#f37370");
    ("red8", VStr "#f37370");
    ("red-9", VStr "#f89f9a");
    ("red9", VStr "#f89f9a");
    ("red-10", VStr "#fac8c3");
    ("red10", VStr "#fac8c3");
    ("orange-1", VStr "#2b1d11");
    ("orange1", VStr "#2b1d11");
    ("orange-2", VStr "#442a11");
    ("orange2", VStr "#442a11");
    ("orange-3", VStr "#593815");
    ("orange3", VStr "#593815");
    ("orange-4", VStr "#7c4a15");
    ("orange4", VStr "#7c4a15");
    ("orange-5", VStr "#aa6215");
    ("orange5", VStr "#aa6215");
    ("orange-6", VStr "#d87a16");
    ("orange6", VStr "#d87a16");
    ("orange-7", VStr "#e89a3c");
    ("orange7", VStr "#e89a3c");
    ("orange-8", VStr "#f3b765");
    ("orange8", VStr "#f3b765");
    ("orange-9", VStr "#f8cf8d");
    ("orange9", VStr "#f8cf8d");
    ("orange-10", VStr "#fae3b7");
    ("orange10", VStr "#fae3b7");
    ("yellow-1", VStr "#2b2611");
    ("yellow1", VStr "#2b2611");
    ("yellow-2", VStr "#443b11");
    ("yellow2", VStr "#443b11");
    ("yellow-3", VStr "#595014");
    ("yellow3", VStr "#595014");
    ("yellow-4", VStr "#7c6e14");
    ("yellow4", VStr "#7c6e14");
    ("yellow-5", VStr "#aa9514");
    ("yellow5", VStr "#aa9514");
    ("yellow-6", VStr "#d8bd14");
    ("yellow6", VStr "#d8bd14");
    ("yellow-7", VStr "#e8d639");
    ("yellow7", VStr "#e8d639");
    ("yellow-8", VStr "#f3ea62");
    ("yellow8", VStr "#f3ea62");
    ("yellow-9", VStr "#f8f48b");
    ("yellow9", VStr "#f8f48b");
    ("yellow-10", VStr "#fafab5");
    ("yellow10", VStr "#fafab5");
    ("volcano-1", VStr "#2b1611");
    ("volcano1", VStr "#2b1611");
    ("volcano-2", VStr "#441d12");
    ("volcano2", VStr "#441d12");
    ("volcano-3", VStr "#592716");
    ("volcano3", VStr "#592716");
    ("volcano-4", VStr "#7c3118");
    ("volcano4", VStr "#7c3118");
    ("volcano-5", VStr "#aa3e19");
    ("volcano5", VStr "#aa3e19");
    ("volcano-6", VStr "#d84a1b");
    ("volcano6", VStr "#d84a1b");
    ("volcano-7", VStr "#e87040");
    ("volcano7", VStr "#e87040");
    ("volcano-8", VStr "#f3956a");
    ("volcano8", VStr "#f3956a");
    ("volcano-9", VStr "#f8b692");
    ("volcano9", VStr "#f8b692");
    ("volcano-10", VStr "#fad4bc");
    ("volcano10", VStr "#fad4bc");
    ("geekblue-1", VStr "#131629");
    ("geekblue1", VStr "#131629");
    ("geekblue-2", VStr "#161d40");
    ("geekblue2", VStr "#161d40");
    ("geekblue-3", VStr "#1c2755");
    ("geekblue3", VStr "#1c2755");
    ("geekblue-4", VStr "#203175");
    ("geekblue4", VStr "#203175");
    ("geekblue-5", VStr "#263ea0");
    ("geekblue5", VStr "#263ea0");
    ("geekblue-6", VStr "#2b4acb");
    ("geekblue6", VStr "#2b4acb");
    ("geekblue-7", VStr "#5273e0");
    ("geekblue7", VStr "#5273e0");
    ("geekblue-8", VStr "#7f9ef3");
    ("geekblue8", VStr "#7f9ef3");
    ("geekblue-9", VStr "#a8c1f8");
    ("geekblue9", VStr "#a8c1f8");
    ("geekblue-10", VStr "#d2e0fa");
    ("geekblue10", VStr "#d2e0fa");
    ("gold-1", VStr "#2b2111");
    ("gold1", VStr "#2b2111");
    ("gold-2", VStr "#443111");
    ("gold2", VStr "#443111");
    ("gold-3", VStr "#594214");
    ("gold3", VStr "#594214");
    ("gold-4", VStr "#7c5914");
    ("gold4", VStr "#7c5914");
    ("gold-5", VStr "#aa7714");
    ("gold5", VStr "#aa7714");
    ("gold-6", VStr "#d89614");
    ("gold6", VStr "#d89614");
    ("gold-7", VStr "#e8b339");
    ("gold7", VStr "#e8b339");
    ("gold-8", VStr "#f3cc62");
    ("gold8", VStr "#f3cc62");
    ("gold-9", VStr "#f8df8b");
    ("gold9", VStr "#f8df8b");
    ("gold-10", VStr "#faedb5");
    ("gold10", VStr "#faedb5");
    ("lime-1", VStr "#1f2611");
    ("lime1", VStr "#1f2611");
    ("lime-2", VStr "#2e3c10");
    ("lime2", VStr "#2e3c10");
    ("lime-3", VStr "#3e4f13");
    ("lime3", VStr "#3e4f13");
    ("lime-4", VStr "#536d13");
    ("lime4", VStr "#536d13");
    ("lime-5", VStr "#6f9412");
    ("lime5", VStr "#6f9412");
    ("lime-6", VStr "#8bbb11");
    ("lime6", VStr "#8bbb11");
    ("lime-7", VStr "#a9d134");
    ("lime7", VStr "#a9d134");
    ("lime-8", VStr "#c9e75d");
    ("lime8", VStr "#c9e75d");
    ("lime-9", VStr "#e4f88b");
    ("lime9", VStr "#e4f88b");
    ("lime-10", VStr "#f0fab5");
    ("lime10", VStr "#f0fab5");
    ("colorTextTertiary", VStr "rgba(255, 255, 255, 0.45)");
    ("colorTextQuaternary", VStr "rgba(255, 255, 255, 0.25)");
    ("colorFill", VStr "rgba(255, 255, 255, 0.18)");
    ("colorFillSecondary", VStr "rgba(255, 255, 255, 0.12)");
    ("colorFillTertiary", VStr "rgba(255, 255, 255, 0.08)");
    ("colorFillQuaternary", VStr "rgba(255, 255, 255, 0.04)");
    ("colorBgLayout", VStr "#23232e");
    ("colorBgContainer", VStr "#353545");
    ("colorBgElevated", VStr "#3d3d51");
    ("colorBgSpotlight", VStr "#5c5c79");
    ("colorBgBlur", VStr "rgba(255, 255, 255, 0.04)");
    ("colorBorderSecondary", VStr "#4d4d65");
    ("colorPrimaryBg", VStr "#111f26");
    ("colorPrimaryBgHover", VStr "#0f2f3c");
    ("colorPrimaryBorder", VStr "#11404f");
    ("colorPrimaryBorderHover", VStr "#10566d");
    ("colorPrimaryHover", VStr "#2dadd1");
    ("colorPrimaryActive", VStr "#0e7495");
    ("colorPrimaryTextHover", VStr "#2dadd1");
    ("colorPrimaryText", VStr "#0c91bc");
    ("colorPrimaryTextActive", VStr "#0e7495");
    ("colorSuccessBg", VStr "#162312");
    ("colorSuccessBgHover", VStr "#1d3712");
    ("colorSuccessBorder", VStr "#274916");
    ("colorSuccessBorderHover", VStr "#306317");
    ("colorSuccessHover", VStr "#306317");
    ("colorSuccessActive", VStr "#3c8618");
    ("colorSuccessTextHover", VStr "#6abe39");
    ("colorSuccessText", VStr "#49aa19");
    ("colorSuccessTextActive", VStr "#3c8618");
    ("colorErrorBg", VStr "#2c1618");
    ("colorErrorBgHover", VStr "#451d1f");
    ("colorErrorBorder", VStr "#5b2526");
    ("colorErrorBorderHover", VStr "#7e2e2f");
    ("colorErrorHover", VStr "#e86e6b");
    ("colorErrorActive", VStr "#ad393a");
    ("colorErrorTextHover", VStr "#e86e6b");
    ("colorErrorText", VStr "#dc4446");
    ("colorErrorTextActive", VStr "#ad393a");
    ("colorWarningBg", VStr "#2b2111");
    ("colorWarningBgHover", VStr "#443111");
    ("colorWarningBorder", VStr "#594214");
    ("colorWarningBorderHover", VStr "#7c5914");
    ("colorWarningHover", VStr "#7c5914");
    ("colorWarningActive", VStr "#aa7714");
    ("colorWarningTextHover", VStr "#e8b339");
    ("colorWarningText", VStr "#d89614");
    ("colorWarningTextActive", VStr "#aa7714");
    ("colorInfoBg", VStr "#111a2c");
    ("colorInfoBgHover", VStr "#112545");
    ("colorInfoBorder", VStr "#15325b");
    ("colorInfoBorderHover", VStr "#15417e");
    ("colorInfoHover", VStr "#15417e");
    ("colorInfoActive", VStr "#1554ad");
    ("colorInfoTextHover", VStr "#3c89e8");
    ("colorInfoText", VStr "#1668dc");
    ("colorInfoTextActive", VStr "#1554ad");
    ("colorLinkHover", VStr "#15417e");
    ("colorLinkActive", VStr "#1554ad");
    ("colorBgMask", VStr "rgba(0, 0, 0, 0.45)");
    ("colorWhite", VStr "#fff");
    ("fontSizeSM", VNum 10);
    ("fontSizeXL", VNum 16);
    ("fontSizeHeading1", VNum 32);
    ("fontSizeHeading2", VNum 26);
    ("fontSizeHeading3", VNum 20);
    ("fontSizeHeading4", VNum 16);
    ("fontSizeHeading5", VNum 14);
    ("lineHeight", VNum 1.6666666666666667);
    ("lineHeightLG", VNum 1.5714285714285714);
    ("lineHeightSM", VNum 1.8);
    ("fontHeight", VNum 20);
    ("fontHeightLG", VNum 22);
    ("fontHeightSM", VNum 18);
    ("lineHeightHeading1", VNum 1.25);
    ("lineHeightHeading2", VNum 1.3076923076923077);
    ("lineHeightHeading3", VNum 1.4);
    ("lineHeightHeading4", VNum 1.5);
    ("lineHeightHeading5", VNum 1.5714285714285714);
    ("sizeXXL", VNum 48);
    ("sizeXL", VNum 32);
    ("sizeLG", VNum 16);
    ("sizeMD", VNum 16);
    ("sizeMS", VNum 12);
    ("size", VNum 8);
    ("sizeSM", VNum 8);
    ("sizeXS", VNum 4);
    ("sizeXXS", VNum 4);
    ("controlHeightSM", VNum 21);
    ("controlHeightXS", VNum 14);
    ("controlHeightLG", VNum 35);
    ("motionDurationFast", VStr "0s");
    ("motionDurationMid", VStr "0s");
    ("motionDurationSlow", VStr "0s");
    ("lineWidthBold", VNum 2);
    ("borderRadiusXS", VNum 2);
    ("borderRadiusSM", VNum 4);
    ("borderRadiusLG", VNum 8);
    ("borderRadiusOuter", VNum 4);
    ("colorFillContent", VStr "rgba(255, 255, 255, 0.12)");
    ("colorFillContentHover", VStr "rgba(255, 255, 255, 0.18)");
    ("colorFillAlter", VStr "rgba(255, 255, 255, 0.04)");
    ("colorBgContainerDisabled", VStr "rgba(255, 255, 255, 0.08)");
    ("colorBorderBg", VStr "#353545");
    ("colorSplit", VStr "rgba(186, 186, 247, 0.18)");
    ("colorTextPlaceholder", VStr "rgba(255, 255, 255, 0.25)");
    ("colorTextHeading", VStr "#ffffffa6");
    ("colorTextLabel", VStr "#ffffff73");
    ("colorTextDescription", VStr "rgba(255, 255, 255, 0.45)");
    ("colorTextLightSolid", VStr "#fff");
    ("colorHighlight", VStr "#dc4446");
    ("colorBgTextHover", VStr "rgba(255, 255, 255, 0.12)");
    ("colorBgTextActive", VStr "rgba(255, 255, 255, 0.18)");
    ("colorErrorOutline", VStr "rgba(39, 5, 0, 0.65)");
    ("colorWarningOutline", VStr "rgba(40, 26, 0, 0.75)");
    ("fontSizeIcon", VNum 10);
    ("lineWidthFocus", VNum 4);
    ("controlOutlineWidth", VNum 2);
    ("controlInteractiveSize", VNum 14);
    ("controlItemBgHover", VStr "rgba(255, 255, 255, 0.08)");
    ("controlItemBgActive", VStr "#111f26");
    ("controlItemBgActiveHover", VStr "#0f2f3c");
    ("controlItemBgActiveDisabled", VStr "rgba(255, 255, 255, 0.18)");
    ("controlTmpOutline", VStr "rgba(255, 255, 255, 0.04)");
    ("controlOutline", VStr "rgba(0, 21, 23, 0.68)");
    ("fontWeightStrong", VNum 600);
    ("opacityLoading", VNum 0.65);
    ("linkDecoration", VStr "none");
    ("linkHoverDecoration", VStr "none");
    ("linkFocusDecoration", VStr "none");
    ("controlPaddingHorizontal", VNum 12);
    ("controlPaddingHorizontalSM", VNum 8);
    ("paddingXXS", VNum 4);
    ("paddingXS", VNum 4);
    ("paddingSM", VNum 8);
    ("padding", VNum 8);
    ("paddingMD", VNum 16);
    ("paddingLG", VNum 16);
    ("paddingXL", VNum 32);
    ("paddingContentHorizontalLG", VNum 16);
    ("paddingContentVerticalLG", VNum 12);
    ("paddingContentHorizontal", VNum 12);
    ("paddingContentVertical", VNum 8);
    ("paddingContentHorizontalSM", VNum 8);
    ("paddingContentVerticalSM", VNum 4);
    ("marginXXS", VNum 4);
    ("marginXS", VNum 4);
    ("marginSM", VNum 8);
    ("margin", VNum 8);
    ("marginMD", VNum 16);
    ("marginLG", VNum 16);
    ("marginXL", VNum 32);
    ("marginXXL", VNum 48);
    ("boxShadow", VStr (nl +:+ "      0 6px 16px 0 rgba(0, 0, 0, 0.08)," +:+ nl +:+ "      0 3px 6px -4px rgba(0, 0, 0, 0.12)," +:+ nl +:+ "      0 9px 28px 8px rgba(0, 0, 0, 0.05)" +:+ nl +:+ "    "));
    ("boxShadowSecondary", VStr (nl +:+ "      0 6px 16px 0 rgba(0, 0, 0, 0.08)," +:+ nl +:+ "      0 3px 6px -4px rgba(0, 0, 0, 0.12)," +:+ nl +:+ "      0 9px 28px 8px rgba(0, 0, 0, 0.05)" +:+ nl +:+ "    "));
    ("boxShadowTertiary", VStr (nl +:+ "      0 1px 2px 0 rgba(0, 0, 0, 0.03)," +:+ nl +:+ "      0 1px 6px -1px rgba(0, 0, 0, 0.02)," +:+ nl +:+ "      0 2px 4px 0 rgba(0, 0, 0, 0.02)" +:+ nl +:+ "    "));
    ("screenXS", VNum 480);
    ("screenXSMin", VNum 480);
    ("screenXSMax", VNum 575);
    ("screenSM", VNum 576);
    ("screenSMMin", VNum 576);
    ("screenSMMax", VNum 767);
    ("screenMD", VNum 768);
    ("screenMDMin", VNum 768);
    ("screenMDMax", VNum 991);
    ("screenLG", VNum 992);
    ("screenLGMin", VNum 992);
    ("screenLGMax", VNum 1199);
    ("screenXL", VNum 1200);
    ("screenXLMin", VNum 1200);
    ("screenXLMax", VNum 1599);
    ("screenXXL", VNum 1600);
    ("screenXXLMin", VNum 1600);
    ("boxShadowPopoverArrow", VStr "2px 2px 5px rgba(0, 0, 0, 0.05)");
    ("boxShadowCard", VStr (nl +:+ "      0 1px 2px -2px rgba(0, 0, 0, 0.16)," +:+ nl +:+ "      0 3px 6px 0 rgba(0, 0, 0, 0.12)," +:+ nl +:+ "      0 5px 12px 4px rgba(0, 0, 0, 0.09)" +:+ nl +:+ "    "));
    ("boxShadowDrawerRight", VStr (nl +:+ "      -6px 0 16px 0 rgba(0, 0, 0, 0.08)," +:+ nl +:+ "      -3px 0 6px -4px rgba(0, 0, 0, 0.12)," +:+ nl +:+ "      -9px 0 28px 8px rgba(0, 0, 0, 0.05)" +:+ nl +:+ "    "));
    ("boxShadowDrawerLeft", VStr (nl +:+ "      6px 0 16px 0 rgba(0, 0, 0, 0.08)," +:+ nl +:+ "      3px 0 6px -4px rgba(0, 0, 0, 0.12)," +:+ nl +:+ "      9px 0 28px 8px rgba(0, 0, 0, 0.05)" +:+ nl +:+ "    "));
    ("boxShadowDrawerUp", VStr (nl +:+ "      0 6px 16px 0 rgba(0, 0, 0, 0.08)," +:+ nl +:+ "      0 3px 6px -4px rgba(0, 0, 0, 0.12)," +:+ nl +:+ "      0 9px 28px 8px rgba(0, 0, 0, 0.05)" +:+ nl +:+ "    "));
    ("boxShadowDrawerDown", VStr (nl +:+ "      0 -6px 16px 0 rgba(0, 0, 0, 0.08)," +:+ nl +:+ "      0 -3px 6px -4px rgba(0, 0, 0, 0.12)," +:+ nl +:+ "      0 -9px 28px 8px rgba(0, 0, 0, 0.05)" +:+ nl +:+ "    "));
    ("boxShadowTabsOverflowLeft", VStr "inset 10px 0 8px -8px rgba(0, 0, 0, 0.08)");
    ("boxShadowTabsOverflowRight", VStr "inset -10px 0 8px -8px rgba(0, 0, 0, 0.08)");
    ("boxShadowTabsOverflowTop", VStr "inset 0 10px 8px -8px rgba(0, 0, 0, 0.08)");
    ("boxShadowTabsOverflowBottom", VStr "inset 0 -10px 8px -8px rgba(0, 0, 0, 0.08)");
    ("Menu", VObj [
      ("colorBgContainer", VStr "rgb(49,49,61)");
      ("itemActiveBg", VStr "#ffffff0d");
      ("colorHighlight", VStr "#ffffff") ]);
    ("Card", VObj [
      ("colorBgContainer", VStr "#23232e") ]);
    ("Drawer", VObj [
      ("colorText", VStr "#ffffff");
      ("colorTextBase", VStr "#ffffff") ]);
    ("Layout", VObj [
      ("headerBg", VStr "rgb(49,49,61)");
      ("bodyBg", VStr "rgb(49,49,61)");
      ("footerBg", VStr "rgb(49,49,61)");
      ("colorBgContainer", VStr "rgb(49,49,61)") ]);
    ("Modal", VObj [
      ("headerBg", VStr "#1c1c26");
      ("margin", VNum 0);
      ("contentBg", VStr "#23232e") ]);
    ("Button", VObj [
      ("colorText", VStr "#ffffffd9");
      ("defaultBg", VStr "#444457");
      ("borderRadius", VNum 0);
      ("borderRadiusLG", VNum 0);
      ("fontSize", VNum 14);
      ("lineHeight", VNum 24) ]);
    ("Tabs", VObj [
      ("fontSize", VNum 14);
      ("colorPrimary", VStr "#0ba7da") ]);
    ("Table", VObj [
      ("motion", VBool false);
      ("motionDurationSlow", VStr "0s");
      ("motionDurationFast", VStr "0s");
      ("borderRadius", VNum 0);
      ("headerBorderRadius", VNum 0);
      ("colorBgContainer", VStr "#23232e");
      ("fontSize", VNum 14) ]);
    ("Switch", VObj [
      ("motion", VBool true);
      ("motionDurationMid", VStr "0.2s");
      ("colorPrimary", VStr "rgb(11,167,218)");
      ("trackHeight", VNum 24) ]);
    ("Select", VObj [
      ("optionSelectedBg", VStr "rgb(28,142,183)") ]);
    ("_tokenKey", VStr "mr2whb");
    ("_themeKey", VStr "mr2whb");
    ("_hashId", VStr "css-dev-only-do-not-override-fymbro") ]%Q.

Definition fixture_realToken : Obj :=
  [
    ("blue", VStr "#1677ff");
    ("purple", VStr "#722ED1");
    ("cyan", VStr "#13C2C2");
    ("green", VStr "#52C41A");
    ("magenta", VStr "#EB2F96");
    ("pink", VStr "#eb2f96");
    ("red", VStr "#F5222D");
    ("orange", VStr "#FA8C16");
    ("yellow", VStr "#FADB14");
    ("volcano", VStr "#FA541C");
    ("geekblue", VStr "#2F54EB");
    ("gold", VStr "#FAAD14");
    ("lime", VStr "#A0D911");
    ("colorPrimary", VStr "#0c91bc");
    ("colorSuccess", VStr "#49aa19");
    ("colorWarning", VStr "#d89614");
    ("colorError", VStr "#dc4446");
    ("colorInfo", VStr "#1668dc");
    ("colorLink", VStr "#1668dc");
    ("colorTextBase", VStr "#fff");
    ("colorBgBase", VStr "#23232e");
    ("fontFamily", VStr ("ui-monospace, SFMono-Regular, Menlo, Monaco, Consolas, " +:+ dq +:+ "Liberation Mono" +:+ dq +:+ ", " +:+ dq +:+ "Courier New" +:+ dq +:+ ", monospace"));
    ("fontFamilyCode", VStr "'SFMono-Regular', Consolas, 'Liberation Mono', Menlo, Courier, monospace");
    ("fontSize", VNum 12);
    ("lineWidth", VNum 1);
    ("lineType", VStr "solid");
    ("motionUnit", VNum 0.1);
    ("motionBase", VNum 0);
    ("motionEaseOutCirc", VStr "cubic-bezier(0.08, 0.82, 0.17, 1)");
    ("motionEaseInOutCirc", VStr "cubic-bezier(0.78, 0.14, 0.15, 0.86)");
    ("motionEaseOut", VStr "cubic-bezier(0.215, 0.61, 0.355, 1)");
    ("motionEaseInOut", VStr "cubic-bezier(0.645, 0.045, 0.355, 1)");
    ("motionEaseOutBack", VStr "cubic-bezier(0.12, 0.4, 0.29, 1.46)");
    ("motionEaseInBack", VStr "cubic-bezier(0.71, -0.46, 0.88, 0.6)");
    ("motionEaseInQuint", VStr "cubic-bezier(0.755, 0.05, 0.855, 0.06)");
    ("motionEaseOutQuint", VStr "cubic-bezier(0.23, 1, 0.32, 1)");
    ("borderRadius", VNum 6);
    ("sizeUnit", VNum 4);
    ("sizeStep", VNum 4);
    ("sizePopupArrow", VNum 16);
    ("controlHeight", VNum 28);
    ("zIndexBase", VNum 0);
    ("zIndexPopupBase", VNum 1000);
    ("opacityImage", VNum 1);
    ("wireframe", VBool false);
    ("motion", VBool false);
    ("colorText", VStr "#ffffffa6");
    ("colorTextSecondary", VStr "#ffffff73");
    ("colorTextDisabled", VStr "#ffffff40");
    ("colorIcon", VStr "#ffffffa6");
    ("colorIconHover", VStr "#ffffffd9");
    ("colorBorder", VStr "#17171f");
    ("fontSizeLG", VNum 16);
    ("blue-1", VStr "#111a2c");
    ("blue1", VStr "#111a2c");
    ("blue-2", VStr "#112545");
    ("blue2", VStr "#112545");
    ("blue-3", VStr "#15325b");
    ("blue3", VStr "#15325b");
    ("blue-4", VStr "#15417e");
    ("blue4", VStr "#15417e");
    ("blue-5", VStr "#1554ad");
    ("blue5", VStr "#1554ad");
    ("blue-6", VStr "#1668dc");
    ("blue6", VStr "#1668dc");
    ("blue-7", VStr "#3c89e8");
    ("blue7", VStr "#3c89e8");
    ("blue-8", VStr "#65a9f3");
    ("blue8", VStr "#65a9f3");
    ("blue-9", VStr "#8dc5f8");
    ("blue9", VStr "#8dc5f8");
    ("blue-10", VStr "#b7dcfa");
    ("blue10", VStr "#b7dcfa");
    ("purple-1", VStr "#1a1325");
    ("purple1", VStr "#1a1325");
    ("purple-2", VStr "#24163a");
    ("purple2", VStr "#24163a");
    ("purple-3", VStr "#301c4d");
    ("purple3", VStr "#301c4d");
    ("purple-4", VStr "#3e2069");
    ("purple4", VStr "#3e2069");
    ("purple-5", VStr "#51258f");
    ("purple5", VStr "#51258f");
    ("purple-6", VStr "#642ab5");
    ("purple6", VStr "#642ab5");
    ("purple-7", VStr "#854eca");
    ("purple7", VStr "#854eca");
    ("purple-8", VStr "#ab7ae0");
    ("purple8", VStr "#ab7ae0");
    ("purple-9", VStr "#cda8f0");
    ("purple9", VStr "#cda8f0");
    ("purple-10", VStr "#ebd7fa");
    ("purple10", VStr "#ebd7fa");
    ("cyan-1", VStr "#112123");
    ("cyan1", VStr "#112123");
    ("cyan-2", VStr "#113536");
    ("cyan2", VStr "#113536");
    ("cyan-3", VStr "#144848");
    ("cyan3", VStr "#144848");
    ("cyan-4", VStr "#146262");
    ("cyan4", VStr "#146262");
    ("cyan-5", VStr "#138585");
    ("cyan5", VStr "#138585");
    ("cyan-6", VStr "#13a8a8");
    ("cyan6", VStr "#13a8a8");
    ("cyan-7", VStr "#33bcb7");
    ("cyan7", VStr "#33bcb7");
    ("cyan-8", VStr "#58d1c9");
    ("cyan8", VStr "#58d1c9");
    ("cyan-9", VStr "#84e2d8");
    ("cyan9", VStr "#84e2d8");
    ("cyan-10", VStr "#b2f1e8");
    ("cyan10", VStr "#b2f1e8");
    ("green-1", VStr "#162312");
    ("green1", VStr "#162312");
    ("green-2", VStr "#1d3712");
    ("green2", VStr "#1d3712");
    ("green-3", VStr "#274916");
    ("green3", VStr "#274916");
    ("green-4", VStr "#306317");
    ("green4", VStr "#306317");
    ("green-5", VStr "#3c8618");
    ("green5", VStr "#3c8618");
    ("green-6", VStr "#49aa19");
    ("green6", VStr "#49aa19");
    ("green-7", VStr "#6abe39");
    ("green7", VStr "#6abe39");
    ("green-8", VStr "#8fd460");
    ("green8", VStr "#8fd460");
    ("green-9", VStr "#b2e58b");
    ("green9", VStr "#b2e58b");
    ("green-10", VStr "#d5f2bb");
    ("green10", VStr "#d5f2bb");
    ("magenta-1", VStr "#291321");
    ("magenta1", VStr "#291321");
    ("magenta-2", VStr "#40162f");
    ("magenta2", VStr "#40162f");
    ("magenta-3", VStr "#551c3b");
    ("magenta3", VStr "#551c3b");
    ("magenta-4", VStr "#75204f");
    ("magenta4", VStr "#75204f");
    ("magenta-5", VStr "#a02669");
    ("magenta5", VStr "#a02669");
    ("magenta-6", VStr "#cb2b83");
    ("magenta6", VStr "#cb2b83");
    ("magenta-7", VStr "#e0529c");
    ("magenta7", VStr "#e0529c");
    ("magenta-8", VStr "#f37fb7");
    ("magenta8", VStr "#f37fb7");
    ("magenta-9", VStr "#f8a8cc");
    ("magenta9", VStr "#f8a8cc");
    ("magenta-10", VStr "#fad2e3");
    ("magenta10", VStr "#fad2e3");
    ("pink-1", VStr "#291321");
    ("pink1", VStr "#291321");
    ("pink-2", VStr "#40162f");
    ("pink2", VStr "#40162f");
    ("pink-3", VStr "#551c3b");
    ("pink3", VStr "#551c3b");
    ("pink-4", VStr "#75204f");
    ("pink4", VStr "#75204f");
    ("pink-5", VStr "#a02669");
    ("pink5", VStr "#a02669");
    ("pink-6", VStr "#cb2b83");
    ("pink6", VStr "#cb2b83");
    ("pink-7", VStr "#e0529c");
    ("pink7", VStr "#e0529c");
    ("pink-8", VStr "#f37fb7");
    ("pink8", VStr "#f37fb7");
    ("pink-9", VStr "#f8a8cc");
    ("pink9", VStr "#f8a8cc");
    ("pink-10", VStr "#fad2e3");
    ("pink10", VStr "#fad2e3");
    ("red-1", VStr "#2a1215");
    ("red1", VStr "#2a1215");
    ("red-2", VStr "#431418");
    ("red2", VStr "#431418");
    ("red-3", VStr "#58181c");
    ("red3", VStr "#58181c");
    ("red-4", VStr "#791a1f");
    ("red4", VStr "#791a1f");
    ("red-5", VStr "#a61d24");
    ("red5", VStr "#a61d24");
    ("red-6", VStr "#d32029");
    ("red6", VStr "#d32029");
    ("red-7", VStr "#e84749");
    ("red7", VStr "#e84749");
    ("red-8", VStr "#f37370");
    ("red8", VStr "#f37370");
    ("red-9", VStr "#f89f9a");
    ("red9", VStr "#f89f9a");
    ("red-10", VStr "#fac8c3");
    ("red10", VStr "#fac8c3");
    ("orange-1", VStr "#2b1d11");
    ("orange1", VStr "#2b1d11");
    ("orange-2", VStr "#442a11");
    ("orange2", VStr "#442a11");
    ("orange-3", VStr "#593815");
    ("orange3", VStr "#593815");
    ("orange-4", VStr "#7c4a15");
    ("orange4", VStr "#7c4a15");
    ("orange-5", VStr "#aa6215");
    ("orange5", VStr "#aa6215");
    ("orange-6", VStr "#d87a16");
    ("orange6", VStr "#d87a16");
    ("orange-7", VStr "#e89a3c");
    ("orange7", VStr "#e89a3c");
    ("orange-8", VStr "#f3b765");
    ("orange8", VStr "#f3b765");
    ("orange-9", VStr "#f8cf8d");
    ("orange9", VStr "#f8cf8d");
    ("orange-10", VStr "#fae3b7");
    ("orange10", VStr "#fae3b7");
    ("yellow-1", VStr "#2b2611");
    ("yellow1", VStr "#2b2611");
    ("yellow-2", VStr "#443b11");
    ("yellow2", VStr "#443b11");
    ("yellow-3", VStr "#595014");
    ("yellow3", VStr "#595014");
    ("yellow-4", VStr "#7c6e14");
    ("yellow4", VStr "#7c6e14");
    ("yellow-5", VStr "#aa9514");
    ("yellow5", VStr "#aa9514");
    ("yellow-6", VStr "#d8bd14");
    ("yellow6", VStr "#d8bd14");
    ("yellow-7", VStr "#e8d639");
    ("yellow7", VStr "#e8d639");
    ("yellow-8", VStr "#f3ea62");
    ("yellow8", VStr "#f3ea62");
    ("yellow-9", VStr "#f8f48b");
    ("yellow9", VStr "#f8f48b");
    ("yellow-10", VStr "#fafab5");
    ("yellow10", VStr "#fafab5");
    ("volcano-1", VStr "#2b1611");
    ("volcano1", VStr "#2b1611");
    ("volcano-2", VStr "#441d12");
    ("volcano2", VStr "#441d12");
    ("volcano-3", VStr "#592716");
    ("volcano3", VStr "#592716");
    ("volcano-4", VStr "#7c3118");
    ("volcano4", VStr "#7c3118");
    ("volcano-5", VStr "#aa3e19");
    ("volcano5", VStr "#aa3e19");
    ("volcano-6", VStr "#d84a1b");
    ("volcano6", VStr "#d84a1b");
    ("volcano-7", VStr "#e87040");
    ("volcano7", VStr "#e87040");
    ("volcano-8", VStr "#f3956a");
    ("volcano8", VStr "#f3956a");
    ("volcano-9", VStr "#f8b692");
    ("volcano9", VStr "#f8b692");
    ("volcano-10", VStr "#fad4bc");
    ("volcano10", VStr "#fad4bc");
    ("geekblue-1", VStr "#131629");
    ("geekblue1", VStr "#131629");
    ("geekblue-2", VStr "#161d40");
    ("geekblue2", VStr "#161d40");
    ("geekblue-3", VStr "#1c2755");
    ("geekblue3", VStr "#1c2755");
    ("geekblue-4", VStr "#203175");
    ("geekblue4", VStr "#203175");
    ("geekblue-5", VStr "#263ea0");
    ("geekblue5", VStr "#263ea0");
    ("geekblue-6", VStr "#2b4acb");
    ("geekblue6", VStr "#2b4acb");
    ("geekblue-7", VStr "#5273e0");
    ("geekblue7", VStr "#5273e0");
    ("geekblue-8", VStr "#7f9ef3");
    ("geekblue8", VStr "#7f9ef3");
    ("geekblue-9", VStr "#a8c1f8");
    ("geekblue9", VStr "#a8c1f8");
    ("geekblue-10", VStr "#d2e0fa");
    ("geekblue10", VStr "#d2e0fa");
    ("gold-1", VStr "#2b2111");
    ("gold1", VStr "#2b2111");
    ("gold-2", VStr "#443111");
    ("gold2", VStr "#443111");
    ("gold-3", VStr "#594214");
    ("gold3", VStr "#594214");
    ("gold-4", VStr "#7c5914");
    ("gold4", VStr "#7c5914");
    ("gold-5", VStr "#aa7714");
    ("gold5", VStr "#aa7714");
    ("gold-6", VStr "#d89614");
    ("gold6", VStr "#d89614");
    ("gold-7", VStr "#e8b339");
    ("gold7", VStr "#e8b339");
    ("gold-8", VStr "#f3cc62");
    ("gold8", VStr "#f3cc62");
    ("gold-9", VStr "#f8df8b");
    ("gold9", VStr "#f8df8b");
    ("gold-10", VStr "#faedb5");
    ("gold10", VStr "#faedb5");
    ("lime-1", VStr "#1f2611");
    ("lime1", VStr "#1f2611");
    ("lime-2", VStr "#2e3c10");
    ("lime2", VStr "#2e3c10");
    ("lime-3", VStr "#3e4f13");
    ("lime3", VStr "#3e4f13");
    ("lime-4", VStr "#536d13");
    ("lime4", VStr "#536d13");
    ("lime-5", VStr "#6f9412");
    ("lime5", VStr "#6f9412");
    ("lime-6", VStr "#8bbb11");
    ("lime6", VStr "#8bbb11");
    ("lime-7", VStr "#a9d134");
    ("lime7", VStr "#a9d134");
    ("lime-8", VStr "#c9e75d");
    ("lime8", VStr "#c9e75d");
    ("lime-9", VStr "#e4f88b");
    ("lime9", VStr "#e4f88b");
    ("lime-10", VStr "#f0fab5");
    ("lime10", VStr "#f0fab5");
    ("colorTextTertiary", VStr "rgba(255, 255, 255, 0.45)");
    ("colorTextQuaternary", VStr "rgba(255, 255, 255, 0.25)");
    ("colorFill", VStr "rgba(255, 255, 255, 0.18)");
    ("colorFillSecondary", VStr "rgba(255, 255, 255, 0.12)");
    ("colorFillTertiary", VStr "rgba(255, 255, 255, 0.08)");
    ("colorFillQuaternary", VStr "rgba(255, 255, 255, 0.04)");
    ("colorBgLayout", VStr "#23232e");
    ("colorBgContainer", VStr "#353545");
    ("colorBgElevated", VStr "#3d3d51");
    ("colorBgSpotlight", VStr "#5c5c79");
    ("colorBgBlur", VStr "rgba(255, 255, 255, 0.04)");
    ("colorBorderSecondary", VStr "#4d4d65");
    ("colorPrimaryBg", VStr "#111f26");
    ("colorPrimaryBgHover", VStr "#0f2f3c");
    ("colorPrimaryBorder", VStr "#11404f");
    ("colorPrimaryBorderHover", VStr "#10566d");
    ("colorPrimaryHover", VStr "#2dadd1");
    ("colorPrimaryActive", VStr "#0e7495");
    ("colorPrimaryTextHover", VStr "#2dadd1");
    ("colorPrimaryText", VStr "#0c91bc");
    ("colorPrimaryTextActive", VStr "#0e7495");
    ("colorSuccessBg", VStr "#162312");
    ("colorSuccessBgHover", VStr "#1d3712");
    ("colorSuccessBorder", VStr "#274916");
    ("colorSuccessBorderHover", VStr "#306317");
    ("colorSuccessHover", VStr "#306317");
    ("colorSuccessActive", VStr "#3c8618");
    ("colorSuccessTextHover", VStr "#6abe39");
    ("colorSuccessText", VStr "#49aa19");
    ("colorSuccessTextActive", VStr "#3c8618");
    ("colorErrorBg", VStr "#2c1618");
    ("colorErrorBgHover", VStr "#451d1f");
    ("colorErrorBorder", VStr "#5b2526");
    ("colorErrorBorderHover", VStr "#7e2e2f");
    ("colorErrorHover", VStr "#e86e6b");
    ("colorErrorActive", VStr "#ad393a");
    ("colorErrorTextHover", VStr "#e86e6b");
    ("colorErrorText", VStr "#dc4446");
    ("colorErrorTextActive", VStr "#ad393a");
    ("colorWarningBg", VStr "#2b2111");
    ("colorWarningBgHover", VStr "#443111");
    ("colorWarningBorder", VStr "#594214");
    ("colorWarningBorderHover", VStr "#7c5914");
    ("colorWarningHover", VStr "#7c5914");
    ("colorWarningActive", VStr "#aa7714");
    ("colorWarningTextHover", VStr "#e8b339");
    ("colorWarningText", VStr "#d89614");
    ("colorWarningTextActive", VStr "#aa7714");
    ("colorInfoBg", VStr "#111a2c");
    ("colorInfoBgHover", VStr "#112545");
    ("colorInfoBorder", VStr "#15325b");
    ("colorInfoBorderHover", VStr "#15417e");
    ("colorInfoHover", VStr "#15417e");
    ("colorInfoActive", VStr "#1554ad");
    ("colorInfoTextHover", VStr "#3c89e8");
    ("colorInfoText", VStr "#1668dc");
    ("colorInfoTextActive", VStr "#1554ad");
    ("colorLinkHover", VStr "#15417e");
    ("colorLinkActive", VStr "#1554ad");
    ("colorBgMask", VStr "rgba(0, 0, 0, 0.45)");
    ("colorWhite", VStr "#fff");
    ("fontSizeSM", VNum 10);
    ("fontSizeXL", VNum 16);
    ("fontSizeHeading1", VNum 32);
    ("fontSizeHeading2", VNum 26);
    ("fontSizeHeading3", VNum 20);
    ("fontSizeHeading4", VNum 16);
    ("fontSizeHeading5", VNum 14);
    ("lineHeight", VNum 1.6666666666666667);
    ("lineHeightLG", VNum 1.5714285714285714);
    ("lineHeightSM", VNum 1.8);
    ("fontHeight", VNum 20);
    ("fontHeightLG", VNum 22);
    ("fontHeightSM", VNum 18);
    ("lineHeightHeading1", VNum 1.25);
    ("lineHeightHeading2", VNum 1.3076923076923077);
    ("lineHeightHeading3", VNum 1.4);
    ("lineHeightHeading4", VNum 1.5);
    ("lineHeightHeading5", VNum 1.5714285714285714);
    ("sizeXXL", VNum 48);
    ("sizeXL", VNum 32);
    ("sizeLG", VNum 16);
    ("sizeMD", VNum 16);
    ("sizeMS", VNum 12);
    ("size", VNum 8);
    ("sizeSM", VNum 8);
    ("sizeXS", VNum 4);
    ("sizeXXS", VNum 4);
    ("controlHeightSM", VNum 21);
    ("controlHeightXS", VNum 14);
    ("controlHeightLG", VNum 35);
    ("motionDurationFast", VStr "0s");
    ("motionDurationMid", VStr "0s");
    ("motionDurationSlow", VStr "0s");
    ("lineWidthBold", VNum 2);
    ("borderRadiusXS", VNum 2);
    ("borderRadiusSM", VNum 4);
    ("borderRadiusLG", VNum 8);
    ("borderRadiusOuter", VNum 4);
    ("colorFillContent", VStr "rgba(255, 255, 255, 0.12)");
    ("colorFillContentHover", VStr "rgba(255, 255, 255, 0.18)");
    ("colorFillAlter", VStr "rgba(255, 255, 255, 0.04)");
    ("colorBgContainerDisabled", VStr "rgba(255, 255, 255, 0.08)");
    ("colorBorderBg", VStr "#353545");
    ("colorSplit", VStr "rgba(186, 186, 247, 0.18)");
    ("colorTextPlaceholder", VStr "rgba(255, 255, 255, 0.25)");
    ("colorTextHeading", VStr "#ffffffa6");
    ("colorTextLabel", VStr "#ffffff73");
    ("colorTextDescription", VStr "rgba(255, 255, 255, 0.45)");
    ("colorTextLightSolid", VStr "#fff");
    ("colorHighlight", VStr "#dc4446");
    ("colorBgTextHover", VStr "rgba(255, 255, 255, 0.12)");
    ("colorBgTextActive", VStr "rgba(255, 255, 255, 0.18)");
    ("colorErrorOutline", VStr "rgba(39, 5, 0, 0.65)");
    ("colorWarningOutline", VStr "rgba(40, 26, 0, 0.75)");
    ("fontSizeIcon", VNum 10);
    ("lineWidthFocus", VNum 4);
    ("controlOutlineWidth", VNum 2);
    ("controlInteractiveSize", VNum 14);
    ("controlItemBgHover", VStr "rgba(255, 255, 255, 0.08)");
    ("controlItemBgActive", VStr "#111f26");
    ("controlItemBgActiveHover", VStr "#0f2f3c");
    ("controlItemBgActiveDisabled", VStr "rgba(255, 255, 255, 0.18)");
    ("controlTmpOutline", VStr "rgba(255, 255, 255, 0.04)");
    ("controlOutline", VStr "rgba(0, 21, 23, 0.68)");
    ("fontWeightStrong", VNum 600);
    ("opacityLoading", VNum 0.65);
    ("linkDecoration", VStr "none");
    ("linkHoverDecoration", VStr "none");
    ("linkFocusDecoration", VStr "none");
    ("controlPaddingHorizontal", VNum 12);
    ("controlPaddingHorizontalSM", VNum 8);
    ("paddingXXS", VNum 4);
    ("paddingXS", VNum 4);
    ("paddingSM", VNum 8);
    ("padding", VNum 8);
    ("paddingMD", VNum 16);
    ("paddingLG", VNum 16);
    ("paddingXL", VNum 32);
    ("paddingContentHorizontalLG", VNum 16);
    ("paddingContentVerticalLG", VNum 12);
    ("paddingContentHorizontal", VNum 12);
    ("paddingContentVertical", VNum 8);
    ("paddingContentHorizontalSM", VNum 8);
    ("paddingContentVerticalSM", VNum 4);
    ("marginXXS", VNum 4);
    ("marginXS", VNum 4);
    ("marginSM", VNum 8);
    ("margin", VNum 8);
    ("marginMD", VNum 16);
    ("marginLG", VNum 16);
    ("marginXL", VNum 32);
    ("marginXXL", VNum 48);
    ("boxShadow", VStr (nl +:+ "      0 6px 16px 0 rgba(0, 0, 0, 0.08)," +:+ nl +:+ "      0 3px 6px -4px rgba(0, 0, 0, 0.12)," +:+ nl +:+ "      0 9px 28px 8px rgba(0, 0, 0, 0.05)" +:+ nl +:+ "    "));
    ("boxShadowSecondary", VStr (nl +:+ "      0 6px 16px 0 rgba(0, 0, 0, 0.08)," +:+ nl +:+ "      0 3px 6px -4px rgba(0, 0, 0, 0.12)," +:+ nl +:+ "      0 9px 28px 8px rgba(0, 0, 0, 0.05)" +:+ nl +:+ "    "));
    ("boxShadowTertiary", VStr (nl +:+ "      0 1px 2px 0 rgba(0, 0, 0, 0.03)," +:+ nl +:+ "      0 1px 6px -1px rgba(0, 0, 0, 0.02)," +:+ nl +:+ "      0 2px 4px 0 rgba(0, 0, 0, 0.02)" +:+ nl +:+ "    "));
    ("screenXS", VNum 480);
    ("screenXSMin", VNum 480);
    ("screenXSMax", VNum 575);
    ("screenSM", VNum 576);
    ("screenSMMin", VNum 576);
    ("screenSMMax", VNum 767);
    ("screenMD", VNum 768);
    ("screenMDMin", VNum 768);
    ("screenMDMax", VNum 991);
    ("screenLG", VNum 992);
    ("screenLGMin", VNum 992);
    ("screenLGMax", VNum 1199);
    ("screenXL", VNum 1200);
    ("screenXLMin", VNum 1200);
    ("screenXLMax", VNum 1599);
    ("screenXXL", VNum 1600);
    ("screenXXLMin", VNum 1600);
    ("boxShadowPopoverArrow", VStr "2px 2px 5px rgba(0, 0, 0, 0.05)");
    ("boxShadowCard", VStr (nl +:+ "      0 1px 2px -2px rgba(0, 0, 0, 0.16)," +:+ nl +:+ "      0 3px 6px 0 rgba(0, 0, 0, 0.12)," +:+ nl +:+ "      0 5px 12px 4px rgba(0, 0, 0, 0.09)" +:+ nl +:+ "    "));
    ("boxShadowDrawerRight", VStr (nl +:+ "      -6px 0 16px 0 rgba(0, 0, 0, 0.08)," +:+ nl +:+ "      -3px 0 6px -4px rgba(0, 0, 0, 0.12)," +:+ nl +:+ "      -9px 0 28px 8px rgba(0, 0, 0, 0.05)" +:+ nl +:+ "    "));
    ("boxShadowDrawerLeft", VStr (nl +:+ "      6px 0 16px 0 rgba(0, 0, 0, 0.08)," +:+ nl +:+ "      3px 0 6px -4px rgba(0, 0, 0, 0.12)," +:+ nl +:+ "      9px 0 28px 8px rgba(0, 0, 0, 0.05)" +:+ nl +:+ "    "));
    ("boxShadowDrawerUp", VStr (nl +:+ "      0 6px 16px 0 rgba(0, 0, 0, 0.08)," +:+ nl +:+ "      0 3px 6px -4px rgba(0, 0, 0, 0.12)," +:+ nl +:+ "      0 9px 28px 8px rgba(0, 0, 0, 0.05)" +:+ nl +:+ "    "));
    ("boxShadowDrawerDown", VStr (nl +:+ "      0 -6px 16px 0 rgba(0, 0, 0, 0.08)," +:+ nl +:+ "      0 -3px 6px -4px rgba(0, 0, 0, 0.12)," +:+ nl +:+ "      0 -9px 28px 8px rgba(0, 0, 0, 0.05)" +:+ nl +:+ "    "));
    ("boxShadowTabsOverflowLeft", VStr "inset 10px 0 8px -8px rgba(0, 0, 0, 0.08)");
    ("boxShadowTabsOverflowRight", VStr "inset -10px 0 8px -8px rgba(0, 0, 0, 0.08)");
    ("boxShadowTabsOverflowTop", VStr "inset 0 10px 8px -8px rgba(0, 0, 0, 0.08)");
    ("boxShadowTabsOverflowBottom", VStr "inset 0 -10px 8px -8px rgba(0, 0, 0, 0.08)");
    ("Menu", VObj [
      ("colorBgContainer", VStr "rgb(49,49,61)");
      ("itemActiveBg", VStr "#ffffff0d");
      ("colorHighlight", VStr "#ffffff") ]);
    ("Card", VObj [
      ("colorBgContainer", VStr "#23232e") ]);
    ("Drawer", VObj [
      ("colorText", VStr "#ffffff");
      ("colorTextBase", VStr "#ffffff") ]);
    ("Layout", VObj [
      ("headerBg", VStr "rgb(49,49,61)");
      ("bodyBg", VStr "rgb(49,49,61)");
      ("footerBg", VStr "rgb(49,49,61)");
      ("colorBgContainer", VStr "rgb(49,49,61)") ]);
    ("Modal", VObj [
      ("headerBg", VStr "#1c1c26");
      ("margin", VNum 0);
      ("contentBg", VStr "#23232e") ]);
    ("Button", VObj [
      ("colorText", VStr "#ffffffd9");
      ("defaultBg", VStr "#444457");
      ("borderRadius", VNum 0);
      ("borderRadiusLG", VNum 0);
      ("fontSize", VNum 14);
      ("lineHeight", VNum 24) ]);
    ("Tabs", VObj [
      ("fontSize", VNum 14);
      ("colorPrimary", VStr "#0ba7da") ]);
    ("Table", VObj [
      ("motion", VBool false);
      ("motionDurationSlow", VStr "0s");
      ("motionDurationFast", VStr "0s");
      ("borderRadius", VNum 0);
      ("headerBorderRadius", VNum 0);
      ("colorBgContainer", VStr "#23232e");
      ("fontSize", VNum 14) ]);
    ("Switch", VObj [
      ("motion", VBool true);
      ("motionDurationMid", VStr "0.2s");
      ("colorPrimary", VStr "rgb(11,167,218)");
      ("trackHeight", VNum 24) ]);
    ("Select", VObj [
      ("optionSelectedBg", VStr "rgb(28,142,183)") ]);
    ("_tokenKey", VStr "mr2whb") ]%Q.

Definition fixture_hashId : string := "css-dev-only-do-not-override-fymbro".
Definition fixture_cssVarStr : string := "".
Definition fixture_cssVarKey : string := "".

Definition cachedToken_init : TokenCacheValue :=
  {| tcv_token := fixture_token;
     tcv_hashId := fixture_hashId;
     tcv_realToken := fixture_realToken;
     tcv_cssVarStr := fixture_cssVarStr;
     tcv_cssVarKey := fixture_cssVarKey |}.

(** The globals when the module has been loaded, for a given [document]. *)
Definition initial_globals (doc : option (list StyleEl)) : Globals :=
  {| tokenKeys := ∅; document := doc; cacheArgs := None;
     setArgUpdate := None; cachedToken := cachedToken_init |}.

(** ** Stand-ins for the collaborators

    Concrete functions and inputs on which the statements below are
    evaluated. *)

Module Sample.

Definition ATTR_TOKEN : string := "data-token-hash".
Definition ATTR_MARK : string := "data-css-hash".

(** The algorithm of [@emotion/hash]: MurmurHash2 on 32 bits, seed 0,
    over the low byte of each character, printed in base 36.  [imul] is
    the product modulo 2^32 that the JavaScript source spells out in
    16-bit halves. *)
Definition imul (a b : Z) : Z := (a * b) mod 2 ^ 32.

Definition murmur_m : Z := 0x5bd1e995.

Definition low_byte (c : Ascii.ascii) : Z :=
  Z.land (Z.of_nat (Ascii.nat_of_ascii c)) 0xff.

Fixpoint murmur_mix (h : Z) (s : string) : Z :=
  match s with
  | String c0 (String c1 (String c2 (String c3 rest))) =>
      let k :=
        Z.lor (Z.lor (Z.lor (low_byte c0) (Z.shiftl (low_byte c1) 8))
                     (Z.shiftl (low_byte c2) 16))
              (Z.shiftl (low_byte c3) 24) in
      let k := imul k murmur_m in
      let k := Z.lxor k (Z.shiftr k 24) in
      murmur_mix (Z.lxor (imul k murmur_m) (imul h murmur_m)) rest
  | String c0 (String c1 (String c2 EmptyString)) =>
      let h := Z.lxor h (Z.shiftl (low_byte c2) 16) in
      let h := Z.lxor h (Z.shiftl (low_byte c1) 8) in
      let h := Z.lxor h (low_byte c0) in
      imul h murmur_m
  | String c0 (String c1 EmptyString) =>
      let h := Z.lxor h (Z.shiftl (low_byte c1) 8) in
      let h := Z.lxor h (low_byte c0) in
      imul h murmur_m
  | String c0 EmptyString =>
      let h := Z.lxor h (low_byte c0) in
      imul h murmur_m
  | EmptyString => h
  end.

Definition digit36 (d : Z) : Ascii.ascii :=
  if d <? 10 then Ascii.ascii_of_nat (Z.to_nat (48 + d))
  else Ascii.ascii_of_nat (Z.to_nat (97 + d - 10)).

(** [n.toString(36)]; seven digits hold any 32-bit number. *)
Fixpoint to_base36 (digits : nat) (n : Z) (acc : string) : string :=
  match digits with
  | O => acc
  | S digits' =>
      let acc' := String (digit36 (n mod 36)) acc in
      if n / 36 =? 0 then acc' else to_base36 digits' (n / 36) acc'
  end.

Definition hash (s : string) : string :=
  let h := murmur_mix 0 s in
  let h := Z.lxor h (Z.shiftr h 13) in
  let h := imul h murmur_m in
  to_base36 7 (Z.lxor h (Z.shiftr h 15)) "".

(** Property names and values, one after the other. *)
Fixpoint flattenToken (v : JsValue) : string :=
  match v with
  | VUndef => "undefined"
  | VBool true => "true"
  | VBool false => "false"
  | VNum q =>
      if decide (Qden q = 1%positive) then pretty (Qnum q)
      else pretty (Qnum q) +:+ "/" +:+ pretty (Zpos (Qden q))
  | VStr s => s
  | VObj fields =>
      (fix go (l : list (string * JsValue)) : string :=
         match l with
         | [] => ""
         | (k, x) :: l' => k +:+ flattenToken x +:+ go l'
         end) fields
  end.

Definition token2key (token : Obj) (salt : string) : string :=
  hash (salt +:+ "_" +:+ flattenToken (VObj token)).

(** Every value becomes a reference to a variable named after its
    property; the declarations are collected under the key. *)
Definition transformToken (token : Obj) (key : option string)
    (config : TransformConfig) : Obj * string :=
  let name (k : string) := "--" +:+ default "" (tc_prefix config) +:+ "-" +:+ k in
  ((λ kv, (kv.1, VStr ("var(" +:+ name kv.1 +:+ ")"))) <$> token,
   "." +:+ default "undefined" key +:+ "{"
   +:+ foldr (λ kv acc, name kv.1 +:+ ":" +:+ flattenToken kv.2 +:+ ";" +:+ acc) "" token
   +:+ "}").

(** Modelled from the spec: [toStyleStr] of [../util] is not part of this
    file.  The server-rendering collaborator "consumes a plain flag
    controlling whether wrapper markup is added": with the flag the style
    text is returned as it is; without it the text is wrapped in a style
    tag that carries the attributes with a non-empty value. *)
Definition toStyleStr (style tokenKey : string) (styleId : JsValue)
    (customizeAttrs : list (string * string)) (plain : option bool) : string :=
  if default false plain then style
  else
    let attrs :=
      customizeAttrs ++ [(ATTR_TOKEN, tokenKey); (ATTR_MARK, flattenToken styleId)] in
    let shown := filter (λ av, av.2 ≠ "") attrs in
    let attrStr :=
      foldr (λ av acc, " " +:+ av.1 +:+ "=" +:+ dq +:+ av.2 +:+ dq +:+ acc) "" shown in
    "<style" +:+ attrStr +:+ ">" +:+ style +:+ "</style>".

(** Insert-or-update of the style element marked with the key. *)
Definition updateCSS (call : UpdateCSSCall) (els : list StyleEl) : nat * list StyleEl :=
  match list_find (λ el, el_attrs el !! uo_mark (call_options call) = Some (call_key call)) els with
  | Some (i, el) =>
      (i, <[i := {| el_attrs := el_attrs el; el_css := call_css call;
                    el_instance := el_instance el |}]> els)
  | None =>
      (length els,
       els ++ [{| el_attrs := {[uo_mark (call_options call) := call_key call]};
                  el_css := call_css call; el_instance := None |}])
  end.

(** A cache that holds nothing: every use computes the entry and commits
    its effect. *)
Definition useGlobalCache (prefix : string) (keyPath : list JsValue)
    (cacheFn : Globals → option (TokenCacheValue * Globals))
    (onCacheRemove : TokenCacheValue → Globals → Globals)
    (onCacheEffect : TokenCacheValue → Globals → Globals)
    (s : unit * Globals) : option (TokenCacheValue * (unit * Globals)) :=
  '(value, g) ← cacheFn s.2;
  Some (value, (s.1, onCacheEffect value g)).

Definition theme : Theme :=
  {| theme_id := VNum 1;
     getDerivativeToken :=
       λ token, Some (obj_set token "colorPrimaryHover" (VStr "#4096ff")) |}.

Definition tokens : list Obj :=
  [[("colorPrimary", VStr "#1677ff"); ("fontSize", VNum 14)];
   [("colorPrimary", VStr "#0c91bc")]].

Definition override : Obj := [("fontSize", VNum 12)].

Definition mergedToken : Obj := obj_assign_all [] tokens.

Definition cssVar : CssVar :=
  {| cv_prefix := Some "ant"; cv_unitless := None; cv_ignore := None;
     cv_preserve := None; cv_key := Some "css-var-root" |}.

Definition hookOption : HookOption :=
  {| opt_salt := Some "5.0"; opt_override := Some override;
     opt_formatToken := None; opt_getComputedToken := None;
     opt_cssVar := Some cssVar |}.

Definition ctx : StyleContextValue :=
  {| instanceId := "inst-1"; container := None |}.

Definition args : list Arg :=
  [{| arg_ref := 1%positive; arg_val := ArgTheme theme |};
   {| arg_ref := 2%positive; arg_val := ArgTokens tokens |};
   {| arg_ref := 3%positive; arg_val := ArgOption hookOption |}].

(** A browser document holding one style element of the instance, for
    the theme key [a]. *)
Definition style_a : StyleEl :=
  {| el_attrs := {[ATTR_TOKEN := "a"]}; el_css := ".a{}"; el_instance := Some "inst-1" |}.

(** Globals in which [a] is the only recorded key, used once. *)
Definition one_key : Globals :=
  with_tokenKeys {["a" := 1]} (initial_globals (Some [style_a])).

(** A document with the instance's styles for [a] and [b] and a style
    of another instance for [a]; [a] is recorded once and [b] twice. *)
Definition style_b : StyleEl :=
  {| el_attrs := {[ATTR_TOKEN := "b"]}; el_css := ".b{}"; el_instance := Some "inst-1" |}.

Definition style_a_other : StyleEl :=
  {| el_attrs := {[ATTR_TOKEN := "a"]}; el_css := ".a{}"; el_instance := Some "inst-2" |}.

Definition two_keys : Globals :=
  with_tokenKeys (<["a" := 1]> {["b" := 2]})
    (initial_globals (Some [style_a; style_b; style_a_other])).

(** The same theme object with other tokens and no option. *)
Definition args_other_tokens : list Arg :=
  [{| arg_ref := 1%positive; arg_val := ArgTheme theme |};
   {| arg_ref := 4%positive; arg_val := ArgTokens [[("colorPrimary", VStr "#000")]] |}].

End Sample.

(** ** The usage count of theme keys *)

(** Keys of the registry whose count is above zero, and the rest. *)
Definition live_keys (tk : gmap string Z) : gmap string Z :=
  filter (λ kv, 0 < kv.2) tk.

Definition cleanable_keys (tk : gmap string Z) : gmap string Z :=
  filter (λ kv, kv.2 ≤ 0) tk.

Section TokenCache.

(** [ATTR_TOKEN] and [ATTR_MARK] of [../StyleContext]. *)
Variable ATTR_TOKEN : string.
Variable ATTR_MARK : string.

(** [tokenKeys.set(tokenKey, (tokenKeys.get(tokenKey) || 0) + 1)]. *)
Definition recordCleanToken (tokenKey : string) (g : Globals) : Globals :=
  with_tokenKeys
    (<[tokenKey := default 0 (tokenKeys g !! tokenKey) + 1]> (tokenKeys g)) g.

(** The element is selected by [style[ATTR_TOKEN="key"]] and owned by
    [instanceId]. *)
Definition style_of (key instId : string) (el : StyleEl) : Prop :=
  el_attrs el !! ATTR_TOKEN = Some key ∧ el_instance el = Some instId.

Definition removeStyleTags (key instId : string) (g : Globals) : Globals :=
  match document g with
  | Some els => with_document (Some (filter (λ el, ¬ style_of key instId el) els)) g
  | None => g
  end.

(** The body of [cleanableKeyList.forEach]. *)
Definition sweep_key (instId : string) (g : Globals) (key : string) : Globals :=
  let g' := removeStyleTags key instId g in
  with_tokenKeys (delete key (tokenKeys g')) g'.

Definition cleanTokenStyle (tokenKey instId : string) (g : Globals) : Globals :=
  let g1 :=
    with_tokenKeys
      (<[tokenKey := default 0 (tokenKeys g !! tokenKey) - 1]> (tokenKeys g)) g in
  let tokenKeyList := (map_to_list (tokenKeys g1)).*1 in
  let cleanableKeyList :=
    filter (λ key, default 0 (tokenKeys g1 !! key) ≤ 0) tokenKeyList in
  if decide (Z.of_nat (length tokenKeyList) - Z.of_nat (length cleanableKeyList)
             > TOKEN_THRESHOLD)
  then foldl (sweep_key instId) g1 cleanableKeyList
  else g1.

(** *** Token derivation *)

Definition getComputedToken (originToken overrideToken : Obj) (theme : Theme)
    (format : option (Obj → option Obj)) : option Obj :=
  derivativeToken ← getDerivativeToken theme originToken;
  let mergedDerivativeToken := obj_spread2 derivativeToken overrideToken in
  match format with
  | Some f => f mergedDerivativeToken
  | None => Some mergedDerivativeToken
  end.

(** [process.env.NODE_ENV], [hash] of [@emotion/hash], and the helpers of
    [../util] and [../util/css-variables]. *)
Variable NODE_ENV : option string.
Variable hash : string → string.
Variable flattenToken : JsValue → string.
Variable token2key : Obj → string → string.
Variable transformToken : Obj → option string → TransformConfig → Obj * string.
Variable toStyleStr :
  string → string → JsValue → list (string * string) → option bool → string.

(** [updateCSS] of [rc-util]: the new document and the position in it of
    the style element that was created or updated. *)
Variable updateCSS : UpdateCSSCall → list StyleEl → nat * list StyleEl.

(** [useGlobalCache] and the cache entity it keeps in [StyleContext]. *)
Variable CacheEntity : Type.
Variable useGlobalCache :
  string → list JsValue →
  (Globals → option (TokenCacheValue * Globals)) →
  (TokenCacheValue → Globals → Globals) →
  (TokenCacheValue → Globals → Globals) →
  CacheEntity * Globals → option (TokenCacheValue * (CacheEntity * Globals)).

(** [cssVar?.key]. *)
Definition cssVar_key (cssVar : option CssVar) : option string :=
  cssVar ≫= cv_key.

(** The [cssVar] object as [flattenToken] receives it. *)
Definition cssVar_value (cv : CssVar) : JsValue :=
  let str name (o : option string) : Obj :=
    match o with Some s => [(name, VStr s)] | None => [] end in
  let map name (o : option Obj) : Obj :=
    match o with Some r => [(name, VObj r)] | None => [] end in
  VObj (str "prefix" (cv_prefix cv) ++ map "unitless" (cv_unitless cv)
        ++ map "ignore" (cv_ignore cv) ++ map "preserve" (cv_preserve cv)
        ++ str "key" (cv_key cv)).

(** [`${hashPrefix}-${hash(tokenKey)}`]. *)
Definition hashId_of (tokenKey : string) : string :=
  hashPrefix NODE_ENV +:+ "-" +:+ hash tokenKey.

(** The function [useCacheTokenHelper] passes to [useGlobalCache] to
    compute a missing entry. *)
Definition cacheFn (theme : Theme) (mergedToken override : Obj) (salt : string)
    (formatToken : option (Obj → option Obj))
    (compute : option (Obj → Obj → Theme → option Obj))
    (cssVar : option CssVar) (g : Globals) : option (TokenCacheValue * Globals) :=
  mergedDerivativeToken ←
    match compute with
    | Some c => c mergedToken override theme
    | None => getComputedToken mergedToken override theme formatToken
    end;
  let actualToken := obj_spread mergedDerivativeToken in
  let '(mergedDerivativeToken, cssVarsStr) :=
    match cssVar with
    | Some cv =>
        transformToken mergedDerivativeToken (cv_key cv)
          {| tc_prefix := cv_prefix cv; tc_ignore := cv_ignore cv;
             tc_unitless := cv_unitless cv; tc_preserve := cv_preserve cv |}
    | None => (mergedDerivativeToken, "")
    end in
  let tokenKey := token2key mergedDerivativeToken salt in
  let mergedDerivativeToken :=
    obj_set mergedDerivativeToken "_tokenKey" (VStr tokenKey) in
  let actualToken :=
    obj_set actualToken "_tokenKey" (VStr (token2key actualToken salt)) in
  let themeKey := default tokenKey (cssVar_key cssVar) in
  let mergedDerivativeToken :=
    obj_set mergedDerivativeToken "_themeKey" (VStr themeKey) in
  let g := recordCleanToken themeKey g in
  let hashId := hashId_of tokenKey in
  let mergedDerivativeToken :=
    obj_set mergedDerivativeToken "_hashId" (VStr hashId) in
  Some ({| tcv_token := mergedDerivativeToken;
           tcv_hashId := hashId;
           tcv_realToken := actualToken;
           tcv_cssVarStr := cssVarsStr;
           tcv_cssVarKey := default "" (cssVar_key cssVar) |}, g).

(** The function that runs when an entry is removed from the cache. *)
Definition onCacheRemove (ctx : StyleContextValue) (cache : TokenCacheValue)
    (g : Globals) : Globals :=
  cleanTokenStyle (obj_get_string (tcv_token cache) "_themeKey") (instanceId ctx) g.

(** The call of [updateCSS] the commit-time effect makes for an entry,
    if it makes one. *)
Definition injection (ctx : StyleContextValue) (cssVar : option CssVar)
    (cache : TokenCacheValue) : option UpdateCSSCall :=
  if decide (is_Some cssVar ∧ tcv_cssVarStr cache ≠ "")
  then Some {| call_css := tcv_cssVarStr cache;
               call_key :=
                 hash ("css-variables-" +:+ obj_get_string (tcv_token cache) "_themeKey");
               call_options :=
                 {| uo_mark := ATTR_MARK; uo_prepend := "queue";
                    uo_attachTo := container ctx; uo_priority := -999 |} |}
  else None.

(** The commit-time effect: inject, then tag the style element with the
    owning instance and the theme key.  Effects run in a browser only. *)
Definition onCacheEffect (ctx : StyleContextValue) (cssVar : option CssVar)
    (cache : TokenCacheValue) (g : Globals) : Globals :=
  match injection ctx cssVar cache, document g with
  | Some call, Some els =>
      let '(i, els') := updateCSS call els in
      let tag (style : StyleEl) :=
        {| el_attrs :=
             <[ATTR_TOKEN := obj_get_string (tcv_token cache) "_themeKey"]>
               (el_attrs style);
           el_css := el_css style;
           el_instance := Some (instanceId ctx) |} in
      with_document (Some (alter tag i els')) g
  | _, _ => g
  end.

Definition useCacheTokenHelper (ctx : StyleContextValue) (theme : Theme)
    (tokens : list Obj) (opt : HookOption) :
    CacheEntity * Globals → option (TokenCacheValue * (CacheEntity * Globals)) :=
  let salt := default "" (opt_salt opt) in
  let override := default EMPTY_OVERRIDE (opt_override opt) in
  let formatToken := opt_formatToken opt in
  let compute := opt_getComputedToken opt in
  let cssVar := opt_cssVar opt in
  let mergedToken := obj_assign_all [] tokens in
  let tokenStr := flattenToken (VObj mergedToken) in
  let overrideTokenStr := flattenToken (VObj override) in
  let cssVarStr :=
    match cssVar with Some cv => flattenToken (cssVar_value cv) | None => "" end in
  useGlobalCache TOKEN_PREFIX
    [VStr salt; theme_id theme; VStr tokenStr; VStr overrideTokenStr; VStr cssVarStr]
    (cacheFn theme mergedToken override salt formatToken compute cssVar)
    (onCacheRemove ctx)
    (onCacheEffect ctx cssVar).

(** *** Extraction *)

Definition extract (cache : TokenCacheValue) (effectStyles : Obj)
    (options : option ExtractOptions) : option (Z * JsValue * string) :=
  let realToken := tcv_realToken cache in
  let styleStr := tcv_cssVarStr cache in
  let cssVarKey := tcv_cssVarKey cache in
  let plain := options ≫= plain in
  if decide (styleStr = "") then None
  else
    let styleId := obj_get realToken "_tokenKey" in
    let order := -999 in
    let sharedAttrs :=
      [("data-rc-order", "prependQueue"); ("data-rc-priority", pretty order)] in
    let styleText := toStyleStr styleStr cssVarKey styleId sharedAttrs plain in
    Some (order, styleId, styleText).

(** *** The polled hook *)

(** [args[0] !== cacheArgs[0]]; an empty array yields [undefined]. *)
Definition first_differs (args cacheArgs : list Arg) : bool :=
  bool_decide (arg_ref <$> head args ≠ arg_ref <$> head cacheArgs).

Definition args_changed (args : list Arg) (g : Globals) : bool :=
  match cacheArgs g with
  | None => true
  | Some old => first_differs args old
  end.

(** The default export. *)
Definition useCacheToken (args : list Arg) (g : Globals) :
    Globals * Render TokenCacheValue :=
  let g' := if args_changed args g then with_cacheArgs (Some args) g else g in
  let timers :=
    if args_changed args g
    then match setArgUpdate g with
         | Some s => [SetTimeout 50 s]
         | None => []
         end
    else [] in
  (g', {| rendered := cachedToken g';
          renderTimers := timers;
          mountTimers := [SetInterval rerenderTime SetCacheUpdate] |}).

(** [useCacheTokenHelper(...cacheArgs)]: the first three elements in
    their declared roles; the third defaults to [{}]. *)
Definition empty_option : HookOption :=
  {| opt_salt := None; opt_override := None; opt_formatToken := None;
     opt_getComputedToken := None; opt_cssVar := None |}.

Definition spread_args (args : list Arg) : option (Theme * list Obj * HookOption) :=
  match arg_val <$> args with
  | ArgTheme t :: ArgTokens ts :: ArgOption o :: _ => Some (t, ts, o)
  | [ArgTheme t; ArgTokens ts] => Some (t, ts, empty_option)
  | ArgTheme t :: ArgTokens ts :: ArgOther VUndef :: _ => Some (t, ts, empty_option)
  | _ => None
  end.

Definition PollCacheTokenHelper (ctx : StyleContextValue)
    (s : CacheEntity * Globals) : option ((CacheEntity * Globals) * Render unit) :=
  args ← cacheArgs s.2;
  '(theme, tokens, opt) ← spread_args args;
  '(res, (c, g)) ← useCacheTokenHelper ctx theme tokens opt s;
  Some ((c, with_cachedToken res g),
        {| rendered := tt; renderTimers := [];
           mountTimers := [SetInterval rerenderTime SetRenderNonce] |}).

(** [PollCacheToken]: registers its state setter and renders the helper
    once some consumer has supplied arguments. *)
Definition PollCacheToken (ctx : StyleContextValue)
    (s : CacheEntity * Globals) : option ((CacheEntity * Globals) * Render unit) :=
  let s' := (s.1, with_setArgUpdate (Some SetArgUpdate) s.2) in
  match cacheArgs s'.2 with
  | Some _ => PollCacheTokenHelper ctx s'
  | None => Some (s', {| rendered := tt; renderTimers := []; mountTimers := [] |})
  end.

(** *** Vocabulary of the statements about the usage count *)

(** What a sweep removes from the document: the style elements of the
    instance whose theme key has a count at or below zero. *)
Definition swept_style (tk : gmap string Z) (instId : string) (el : StyleEl) : Prop :=
  el_instance el = Some instId ∧
  is_Some (key ← el_attrs el !! ATTR_TOKEN; cleanable_keys tk !! key).

(** The registry as the decrement of [cleanTokenStyle] leaves it. *)
Definition released (tokenKey : string) (tk : gmap string Z) : gmap string Z :=
  <[tokenKey := default 0 (tk !! tokenKey) - 1]> tk.



(** *** Vocabulary of the statements about derivation *)

(** The names of the identifiers [cacheFn] attaches to a token. *)
Definition metadata_keys : list string := ["_tokenKey"; "_themeKey"; "_hashId"].

(** The properties of a token other than the attached identifiers. *)
Definition semantic_fields (o : Obj) : Obj :=
  filter (λ kv, kv.1 ∉ metadata_keys) o.

(** The first step of [cacheFn]: the caller's [getComputedToken] when
    supplied, the exported one otherwise. *)
Definition derived_token (theme : Theme) (mergedToken override : Obj)
    (formatToken : option (Obj → option Obj))
    (compute : option (Obj → Obj → Theme → option Obj)) : option Obj :=
  match compute with
  | Some c => c mergedToken override theme
  | None => getComputedToken mergedToken override theme formatToken
  end.

(** The second step of [cacheFn]: the token and the style text after the
    optional rewrite into CSS variables. *)
Definition css_var_form (cssVar : option CssVar) (d : Obj) : Obj * string :=
  match cssVar with
  | Some cv =>
      transformToken d (cv_key cv)
        {| tc_prefix := cv_prefix cv; tc_ignore := cv_ignore cv;
           tc_unitless := cv_unitless cv; tc_preserve := cv_preserve cv |}
  | None => (d, "")
  end.

(** The entry [cacheFn] builds from a derived token [d], and the theme
    key it records. *)
Definition theme_key_of (salt : string) (cssVar : option CssVar) (d : Obj) : string :=
  default (token2key (css_var_form cssVar d).1 salt) (cssVar_key cssVar).

Definition entry_of (salt : string) (cssVar : option CssVar) (d : Obj) : TokenCacheValue :=
  let unattached := (css_var_form cssVar d).1 in
  let tokenKey := token2key unattached salt in
  {| tcv_token :=
       obj_set
         (obj_set (obj_set unattached "_tokenKey" (VStr tokenKey))
                  "_themeKey" (VStr (theme_key_of salt cssVar d)))
         "_hashId" (VStr (hashId_of tokenKey));
     tcv_hashId := hashId_of tokenKey;
     tcv_realToken :=
       obj_set (obj_spread d) "_tokenKey" (VStr (token2key (obj_spread d) salt));
     tcv_cssVarStr := (css_var_form cssVar d).2;
     tcv_cssVarKey := default "" (cssVar_key cssVar) |}.



(** *** Vocabulary of the statements about extraction and polling *)

(** The attributes [extract] shares with [rc-util]. *)
Definition sharedAttrs : list (string * string) :=
  [("data-rc-order", "prependQueue"); ("data-rc-priority", "-999")].



(** ** Properties of objects *)

Lemma obj_lookup_set_eq (o : Obj) (k : string) (v : JsValue) :
  obj_lookup (obj_set o k v) k = Some v.
Proof.
  induction o as [|[k' v'] o IH]; simpl.
  - by rewrite decide_True.
  - destruct (decide (k' = k)) as [->|Hne]; simpl.
    + by rewrite decide_True.
    + by rewrite decide_False.
Qed.

Lemma obj_lookup_set_ne (o : Obj) (k k' : string) (v : JsValue) :
  k ≠ k' → obj_lookup (obj_set o k v) k' = obj_lookup o k'.
Proof.
  intros Hne. induction o as [|[k0 v0] o IH]; simpl.
  - by rewrite decide_False.
  - destruct (decide (k0 = k)) as [->|Hne0]; simpl.
    + by rewrite !decide_False.
    + by rewrite IH.
Qed.


Lemma obj_set_fresh (o : Obj) (k : string) (v : JsValue) :
  k ∉ o.*1 → obj_set o k v = o ++ [(k, v)].
Proof.
  induction o as [|[k' v'] o IH]; simpl; [done|].
  rewrite not_elem_of_cons. intros [Hne Hnin].
  rewrite decide_False by congruence. by rewrite IH.
Qed.

Lemma obj_set_keys (o : Obj) (k : string) (v : JsValue) :
  (obj_set o k v).*1 = if decide (k ∈ o.*1) then o.*1 else o.*1 ++ [k].
Proof.
  induction o as [|[k' v'] o IH].
  - destruct (decide (k ∈ ([] : Obj).*1)) as [Hin|_]; [|done].
    by apply elem_of_nil in Hin.
  - cbn [obj_set]. rewrite fmap_cons. cbn [fst].
    destruct (decide (k' = k)) as [->|Hne].
    + rewrite decide_True by left. done.
    + rewrite fmap_cons, IH. cbn [fst].
      destruct (decide (k ∈ o.*1)) as [Hin|Hnin].
      * rewrite decide_True by (by right). done.
      * rewrite decide_False; [done|].
        rewrite not_elem_of_cons. split; [congruence|done].
Qed.

Lemma obj_set_wf (o : Obj) (k : string) (v : JsValue) :
  obj_wf o → obj_wf (obj_set o k v).
Proof.
  unfold obj_wf. intros Hwf. rewrite obj_set_keys.
  destruct (decide (k ∈ o.*1)); [done|].
  apply NoDup_app. split; [done|]. split.
  - intros x Hx ->%list_elem_of_singleton. done.
  - apply NoDup_singleton.
Qed.

Lemma obj_assign_wf (t s : Obj) : obj_wf t → obj_wf (obj_assign t s).
Proof.
  unfold obj_assign. revert t.
  induction s as [|[k v] s IH]; intros t Hwf; simpl; [done|].
  apply IH. by apply obj_set_wf.
Qed.



Lemma obj_assign_fresh (t s : Obj) :
  obj_wf (t ++ s) → obj_assign t s = t ++ s.
Proof.
  unfold obj_assign, obj_wf. revert t.
  induction s as [|[k v] s IH]; intros t Hwf; simpl.
  - by rewrite app_nil_r.
  - rewrite obj_set_fresh.
    + rewrite IH; rewrite <-app_assoc; done.
    + rewrite fmap_app in Hwf. apply NoDup_app in Hwf as (_ & Hdisj & _).
      intros Hin. apply (Hdisj k Hin). left.
Qed.

(** Copying an object by spread yields the same properties in the same
    order. *)
Lemma obj_spread_id (o : Obj) : obj_wf o → obj_spread o = o.
Proof. intros Hwf. unfold obj_spread. by rewrite obj_assign_fresh. Qed.

Lemma obj_spread_wf (o : Obj) : obj_wf (obj_spread o).
Proof. apply obj_assign_wf. apply NoDup_nil_2. Qed.



Lemma semantic_fields_set (o : Obj) (k : string) (v : JsValue) :
  k ∈ metadata_keys → semantic_fields (obj_set o k v) = semantic_fields o.
Proof.
  intros Hk. unfold semantic_fields.
  induction o as [|[k' v'] o IH]; simpl.
  - by rewrite filter_cons_False by (simpl; intros Hn; by apply Hn).
  - destruct (decide (k' = k)) as [->|Hne].
    + by rewrite !filter_cons_False by (simpl; intros Hn; by apply Hn).
    + rewrite !filter_cons. simpl. by rewrite IH.
Qed.



(** ** Properties of token derivation *)

Lemma cacheFn_eq (theme : Theme) (mergedToken override : Obj) (salt : string)
    (formatToken : option (Obj → option Obj))
    (compute : option (Obj → Obj → Theme → option Obj))
    (cssVar : option CssVar) (g : Globals) :
  cacheFn theme mergedToken override salt formatToken compute cssVar g
  = d ← derived_token theme mergedToken override formatToken compute;
    Some (entry_of salt cssVar d, recordCleanToken (theme_key_of salt cssVar d) g).
Proof.
  unfold cacheFn, entry_of, theme_key_of. fold (derived_token theme mergedToken override formatToken compute).
  destruct (derived_token theme mergedToken override formatToken compute) as [d|];
    [|done]. simpl.
  fold (css_var_form cssVar d). by destruct (css_var_form cssVar d) as [T css].
Qed.

Lemma cacheFn_Some (theme : Theme) (mergedToken override : Obj) (salt : string)
    (formatToken : option (Obj → option Obj))
    (compute : option (Obj → Obj → Theme → option Obj))
    (cssVar : option CssVar) (g gs : Globals) (e : TokenCacheValue) :
  cacheFn theme mergedToken override salt formatToken compute cssVar g = Some (e, gs)
  ↔ ∃ d, derived_token theme mergedToken override formatToken compute = Some d ∧
         e = entry_of salt cssVar d ∧
         gs = recordCleanToken (theme_key_of salt cssVar d) g.
Proof.
  rewrite cacheFn_eq. split.
  - destruct (derived_token _ _ _ _ _) as [d|]; [|done]. simpl.
    intros [= <- <-]. by exists d.
  - intros (d & -> & -> & ->). done.
Qed.

(** The computation returns exactly when the derivation does. *)
Lemma cacheFn_is_Some (theme : Theme) (mergedToken override : Obj) (salt : string)
    (formatToken : option (Obj → option Obj))
    (compute : option (Obj → Obj → Theme → option Obj))
    (cssVar : option CssVar) (g : Globals) :
  is_Some (cacheFn theme mergedToken override salt formatToken compute cssVar g)
  ↔ is_Some (derived_token theme mergedToken override formatToken compute).
Proof.
  rewrite cacheFn_eq.
  destruct (derived_token _ _ _ _ _) as [d|]; simpl; split; intros [x Hx]; try done; eauto.
Qed.

Lemma entry_token_lookups (salt : string) (cssVar : option CssVar) (d : Obj) :
  let T := (css_var_form cssVar d).1 in
  obj_lookup (tcv_token (entry_of salt cssVar d)) "_tokenKey"
    = Some (VStr (token2key T salt)) ∧
  obj_lookup (tcv_token (entry_of salt cssVar d)) "_themeKey"
    = Some (VStr (theme_key_of salt cssVar d)) ∧
  obj_lookup (tcv_token (entry_of salt cssVar d)) "_hashId"
    = Some (VStr (hashId_of (token2key T salt))) ∧
  semantic_fields (tcv_token (entry_of salt cssVar d)) = semantic_fields T.
Proof.
  intros T. unfold entry_of. cbn [tcv_token]. fold T. repeat split.
  - rewrite !obj_lookup_set_ne by done. apply obj_lookup_set_eq.
  - rewrite obj_lookup_set_ne by done. apply obj_lookup_set_eq.
  - apply obj_lookup_set_eq.
  - rewrite !semantic_fields_set; [done|..]; unfold metadata_keys;
      rewrite !elem_of_cons; auto.
Qed.

Lemma entry_realToken_lookups (salt : string) (cssVar : option CssVar) (d : Obj) :
  obj_lookup (tcv_realToken (entry_of salt cssVar d)) "_tokenKey"
    = Some (VStr (token2key (obj_spread d) salt)) ∧
  semantic_fields (tcv_realToken (entry_of salt cssVar d))
    = semantic_fields (obj_spread d).
Proof.
  unfold entry_of. cbn [tcv_realToken]. split.
  - apply obj_lookup_set_eq.
  - apply semantic_fields_set. unfold metadata_keys. rewrite !elem_of_cons. auto.
Qed.




Lemma entry_tokenKey_string (salt : string) (cssVar : option CssVar) (d : Obj) :
  obj_get_string (tcv_token (entry_of salt cssVar d)) "_tokenKey"
  = token2key (css_var_form cssVar d).1 salt.
Proof.
  unfold obj_get_string.
  by destruct (entry_token_lookups salt cssVar d) as (-> & _).
Qed.



(** C7.  The [_themeKey] attached to the token of a computed entry is
    [cssVar.key] when the cssVar option supplies a key and the computed
    token key otherwise; that key is the one whose usage is recorded. *)
Theorem themeKey_is_cssVar_key_or_tokenKey
    (theme : Theme) (mergedToken override : Obj) (salt : string)
    (formatToken : option (Obj → option Obj))
    (compute : option (Obj → Obj → Theme → option Obj))
    (cssVar : option CssVar) (g gs : Globals) (e : TokenCacheValue) :
  cacheFn theme mergedToken override salt formatToken compute cssVar g = Some (e, gs) →
  let themeKey :=
    match cssVar_key cssVar with
    | Some key => key
    | None => obj_get_string (tcv_token e) "_tokenKey"
    end in
  obj_lookup (tcv_token e) "_themeKey" = Some (VStr themeKey) ∧
  tokenKeys gs = <[themeKey := default 0 (tokenKeys g !! themeKey) + 1]> (tokenKeys g).
Proof.
  intros (d & Hd & -> & ->)%cacheFn_Some. cbv zeta.
  rewrite entry_tokenKey_string.
  destruct (entry_token_lookups salt cssVar d) as (_ & -> & _).
  unfold theme_key_of. by destruct (cssVar_key cssVar).
Qed.


(** ** Properties of the usage count *)

Lemma length_filter_complement {A} (P : A → Prop) `{∀ x, Decision (P x)} (l : list A) :
  Z.of_nat (length l) - Z.of_nat (length (filter P l))
  = Z.of_nat (length (filter (λ x, ¬ P x) l)).
Proof.
  induction l as [|x l IH]; [done|].
  rewrite !filter_cons. destruct (decide (P x)), (decide (¬ P x)); simpl; try done; lia.
Qed.

Lemma filter_keys_by_lookup (tk : gmap string Z) (P : Z → Prop)
    `{∀ c, Decision (P c)} (l : list (string * Z)) :
  (∀ k v, (k, v) ∈ l → tk !! k = Some v) →
  filter (λ key, P (default 0 (tk !! key))) l.*1 = (filter (λ kv, P kv.2) l).*1.
Proof.
  induction l as [|[k v] l IH]; intros Hl; [done|].
  rewrite fmap_cons, !filter_cons. simpl.
  rewrite (Hl k v) by left. simpl.
  rewrite IH by (intros; apply Hl; by right).
  by destruct (decide (P v)).
Qed.

Lemma size_filter_list (tk : gmap string Z) (P : string * Z → Prop)
    `{∀ kv, Decision (P kv)} :
  size (filter P tk) = length (filter P (map_to_list tk)).
Proof.
  rewrite <-length_map_to_list, map_filter_alt.
  apply Permutation_length, map_to_list_to_map.
  apply (NoDup_fmap_fst _).
  - intros k v1 v2 [_ H1]%list_elem_of_filter [_ H2]%list_elem_of_filter.
    apply elem_of_map_to_list in H1, H2. congruence.
  - apply NoDup_filter, NoDup_map_to_list.
Qed.

(** The quantity the guard of [cleanTokenStyle] compares with the
    threshold is the number of keys with a count above zero. *)
Lemma guard_counts_live_keys (tk : gmap string Z) :
  let tokenKeyList := (map_to_list tk).*1 in
  let cleanableKeyList := filter (λ key, default 0 (tk !! key) ≤ 0) tokenKeyList in
  Z.of_nat (length tokenKeyList) - Z.of_nat (length cleanableKeyList)
  = Z.of_nat (size (live_keys tk)).
Proof.
  simpl. rewrite length_filter_complement.
  pose proof (filter_keys_by_lookup tk (λ c, ¬ c ≤ 0) (map_to_list tk)) as Hf.
  simpl in Hf. rewrite Hf by (intros k v Hkv; by apply elem_of_map_to_list).
  rewrite length_fmap. unfold live_keys. rewrite size_filter_list.
  f_equal. f_equal. apply list_filter_iff. intros [k v]. simpl. lia.
Qed.

Lemma elem_of_cleanableKeyList (tk : gmap string Z) (k : string) :
  k ∈ filter (λ key, default 0 (tk !! key) ≤ 0) (map_to_list tk).*1
  ↔ is_Some (cleanable_keys tk !! k).
Proof.
  rewrite list_elem_of_filter, list_elem_of_fmap. unfold cleanable_keys. split.
  - intros [Hc ([k' v] & -> & Hin)]. apply elem_of_map_to_list in Hin.
    simpl in *. rewrite Hin in Hc. simpl in Hc.
    exists v. by apply map_lookup_filter_Some.
  - intros [v [Hv Hc]%map_lookup_filter_Some]. simpl in Hc. split.
    + by rewrite Hv.
    + exists (k, v). split; [done|]. by apply elem_of_map_to_list.
Qed.

Lemma lookup_foldl_delete (ks : list string) (m : gmap string Z) (k : string) :
  foldl (λ m' key, delete key m') m ks !! k
  = if decide (k ∈ ks) then None else m !! k.
Proof.
  revert m. induction ks as [|k' ks IH]; intros m.
  - case_decide as Hin; [by apply elem_of_nil in Hin|done].
  - change (foldl (λ m' key, delete key m') (delete k' m) ks !! k
            = if decide (k ∈ k' :: ks) then None else m !! k).
    rewrite IH.
    destruct (decide (k ∈ ks)) as [Hin|Hnin], (decide (k ∈ k' :: ks)) as [Hin'|Hnin'];
      try done.
    + exfalso. apply Hnin'. by right.
    + apply elem_of_cons in Hin' as [->|?]; [apply lookup_delete_eq|done].
    + apply lookup_delete_ne. intros ->. apply Hnin'. left.
Qed.

Lemma filter_all {A} (P : A → Prop) `{∀ x, Decision (P x)} (l : list A) :
  (∀ x, P x) → filter P l = l.
Proof.
  intros HP. induction l as [|x l IH]; [done|].
  by rewrite filter_cons_True, IH.
Qed.

(** The loop of a sweep, key by key. *)
Lemma sweep_loop (instId : string) (ks : list string) (g : Globals) :
  tokenKeys (foldl (sweep_key instId) g ks)
  = foldl (λ m key, delete key m) (tokenKeys g) ks ∧
  document (foldl (sweep_key instId) g ks)
  = filter (λ el, Forall (λ key, ¬ style_of key instId el) ks) <$> document g ∧
  cacheArgs (foldl (sweep_key instId) g ks) = cacheArgs g ∧
  setArgUpdate (foldl (sweep_key instId) g ks) = setArgUpdate g ∧
  cachedToken (foldl (sweep_key instId) g ks) = cachedToken g.
Proof.
  revert g. induction ks as [|k ks IH]; intros g.
  - repeat split; try done. simpl. destruct (document g) as [els|]; [|done]. simpl.
    f_equal. symmetry. apply filter_all. intros el. constructor.
  - change (foldl (sweep_key instId) g (k :: ks))
      with (foldl (sweep_key instId) (sweep_key instId g k) ks).
    destruct (IH (sweep_key instId g k)) as (Htk & Hdoc & Ha & Hs & Hc).
    rewrite Htk, Hdoc, Ha, Hs, Hc. clear IH Htk Hdoc Ha Hs Hc.
    unfold sweep_key, removeStyleTags.
    destruct (document g) as [els|] eqn:Hd; simpl.
    + repeat split; try done. f_equal. rewrite list_filter_filter.
      apply list_filter_iff. intros el. rewrite Forall_cons.
      split; intros [? ?]; by split.
    + rewrite Hd. done.
Qed.

Lemma swept_style_spec (tk : gmap string Z) (instId : string) (el : StyleEl) :
  Forall (λ key, ¬ style_of key instId el)
         (filter (λ key, default 0 (tk !! key) ≤ 0) (map_to_list tk).*1)
  ↔ ¬ swept_style tk instId el.
Proof.
  rewrite Forall_forall. unfold swept_style, style_of. split.
  - intros Hall [Hinst Hkey].
    destruct (el_attrs el !! ATTR_TOKEN) as [key|] eqn:Hattr; simpl in Hkey.
    + apply (Hall key); [by apply elem_of_cleanableKeyList|done].
    + by destruct Hkey.
  - intros Hns key Hin [Hattr Hinst]. apply Hns. split; [done|].
    rewrite Hattr. simpl. by apply elem_of_cleanableKeyList.
Qed.

Lemma sweep_leaves_live_keys (tk : gmap string Z) :
  foldl (λ m key, delete key m) tk
        (filter (λ key, default 0 (tk !! key) ≤ 0) (map_to_list tk).*1)
  = live_keys tk.
Proof.
  apply map_eq. intros k. rewrite lookup_foldl_delete. unfold live_keys.
  destruct (decide _) as [Hin|Hnin].
  - apply elem_of_cleanableKeyList in Hin as [c [Hc Hle]%map_lookup_filter_Some].
    symmetry. apply map_lookup_filter_None. right. intros c' Hc'. simpl in *.
    assert (c' = c) by congruence. lia.
  - destruct (tk !! k) as [c|] eqn:Hk.
    + symmetry. apply map_lookup_filter_Some. split; [done|]. simpl.
      destruct (decide (0 < c)); [done|]. exfalso. apply Hnin.
      apply elem_of_cleanableKeyList. exists c. apply map_lookup_filter_Some.
      split; [done|]. simpl. lia.
    + symmetry. apply map_lookup_filter_None. by left.
Qed.

Lemma live_keys_exceed_iff (tk : gmap string Z) :
  Z.of_nat (size (live_keys tk)) > TOKEN_THRESHOLD ↔ ∃ k c, tk !! k = Some c ∧ 0 < c.
Proof.
  unfold TOKEN_THRESHOLD, live_keys.
  assert (Z.of_nat (size (filter (λ kv : string * Z, 0 < kv.2) tk)) > 0
          ↔ size (filter (λ kv : string * Z, 0 < kv.2) tk) ≠ 0%nat) as -> by lia.
  rewrite map_size_ne_0_lookup. split.
  - intros (k & c & [Hc Hpos]%map_lookup_filter_Some). by exists k, c.
  - intros (k & c & Hc & Hpos). exists k, c. by apply map_lookup_filter_Some.
Qed.

(** The registry and the document after [cleanTokenStyle]. *)
Lemma cleanTokenStyle_result (tokenKey instId : string) (g : Globals) :
  let tk := released tokenKey (tokenKeys g) in
  let g' := cleanTokenStyle tokenKey instId g in
  if decide (Z.of_nat (size (live_keys tk)) > TOKEN_THRESHOLD)
  then tokenKeys g' = live_keys tk ∧
       document g' = filter (λ el, ¬ swept_style tk instId el) <$> document g
  else tokenKeys g' = tk ∧ document g' = document g.
Proof.
  intros tk g'. subst g'. unfold cleanTokenStyle. cbv zeta.
  change (tokenKeys (with_tokenKeys ?m g)) with m.
  fold (released tokenKey (tokenKeys g)). fold tk.
  rewrite guard_counts_live_keys.
  destruct (decide (Z.of_nat (size (live_keys tk)) > TOKEN_THRESHOLD)) as [Hlive|Hlive].
  - destruct (sweep_loop instId
                (filter (λ key, default 0 (tk !! key) ≤ 0) (map_to_list tk).*1)
                (with_tokenKeys tk g)) as (Htk & Hdoc & _).
    rewrite Htk, Hdoc. simpl. split.
    + apply sweep_leaves_live_keys.
    + destruct (document g) as [els|]; [|done]. simpl. f_equal.
      apply list_filter_iff. intros el. apply swept_style_spec.
  - done.
Qed.




(** ** Properties of extraction *)

(** C9.  [extract] reads nothing but its arguments (it is a function of
    the entry and the options; the effect styles are ignored and no
    global is involved).  It returns [null] exactly when the style text
    of the entry is empty, as it is for every entry computed without
    cssVar, and otherwise the triple of the priority -999, the
    [_tokenKey] of the real token and the rendered style text. *)
Theorem extract_null_iff_no_style (cache : TokenCacheValue)
    (effectStyles effectStyles' : Obj) (options : option ExtractOptions) :
  (extract cache effectStyles options = None ↔ tcv_cssVarStr cache = "") ∧
  match extract cache effectStyles options with
  | None => tcv_cssVarStr cache = ""
  | Some (order, styleId, styleText) =>
      tcv_cssVarStr cache ≠ "" ∧
      order = -999 ∧
      styleId = obj_get (tcv_realToken cache) "_tokenKey" ∧
      styleText = toStyleStr (tcv_cssVarStr cache) (tcv_cssVarKey cache) styleId
                             sharedAttrs (options ≫= plain)
  end ∧
  extract cache effectStyles options = extract cache effectStyles' options ∧
  ∀ theme mergedToken override salt formatToken compute g gs,
    cacheFn theme mergedToken override salt formatToken compute None g
    = Some (cache, gs) →
    extract cache effectStyles options = None.
Proof.
  unfold extract. cbv zeta.
  destruct (decide (tcv_cssVarStr cache = "")) as [Hempty|Hfull].
  - done.
  - split; [done|]. split; [done|]. split; [done|].
    intros theme mergedToken override salt formatToken compute g gs
      (d & _ & -> & _)%cacheFn_Some.
    done.
Qed.

Lemma injection_None_iff (ctx : StyleContextValue) (cv : CssVar) (cache : TokenCacheValue) :
  injection ctx (Some cv) cache = None ↔ tcv_cssVarStr cache = "".
Proof.
  unfold injection. destruct (decide (tcv_cssVarStr cache = "")) as [Hempty|Hfull].
  - rewrite decide_False by (intros [_ ?]; done). done.
  - rewrite decide_True by (split; [by eexists|done]). done.
Qed.


(** ** Properties of the polled hook *)

Lemma useCacheToken_frame (args : list Arg) (g : Globals) :
  let g' := (useCacheToken args g).1 in
  cachedToken g' = cachedToken g ∧ tokenKeys g' = tokenKeys g ∧
  document g' = document g ∧ setArgUpdate g' = setArgUpdate g ∧
  cacheArgs g' = if args_changed args g then Some args else cacheArgs g.
Proof. unfold useCacheToken. cbn. by destruct (args_changed args g). Qed.

Lemma useCacheToken_rendered (args : list Arg) (g : Globals) :
  rendered (useCacheToken args g).2 = cachedToken g.
Proof. unfold useCacheToken. cbn. by destruct (args_changed args g). Qed.





(** ** Further properties of the usage count *)

(** The count of a key after [cleanTokenStyle], read off the registry as
    the decrement leaves it. *)
Lemma cleanTokenStyle_lookup (tokenKey instId : string) (g : Globals) (k : string) :
  tokenKeys (cleanTokenStyle tokenKey instId g) !! k
  = if decide (Z.of_nat (size (live_keys (released tokenKey (tokenKeys g))))
               > TOKEN_THRESHOLD)
    then live_keys (released tokenKey (tokenKeys g)) !! k
    else released tokenKey (tokenKeys g) !! k.
Proof.
  pose proof (cleanTokenStyle_result tokenKey instId g) as Hres. cbv zeta in Hres.
  destruct (decide _); by destruct Hres as [-> _].
Qed.

Lemma cleanTokenStyle_lookup_Some (tokenKey instId : string) (g : Globals)
    (k : string) (c : Z) :
  tokenKeys (cleanTokenStyle tokenKey instId g) !! k = Some c →
  released tokenKey (tokenKeys g) !! k = Some c.
Proof.
  rewrite cleanTokenStyle_lookup. destruct (decide _); [|done].
  unfold live_keys. by intros [? _]%map_lookup_filter_Some.
Qed.

Lemma cleanTokenStyle_lookup_live (tokenKey instId : string) (g : Globals)
    (k : string) (c : Z) :
  released tokenKey (tokenKeys g) !! k = Some c → 0 < c →
  tokenKeys (cleanTokenStyle tokenKey instId g) !! k = Some c.
Proof.
  intros Hk Hc. rewrite cleanTokenStyle_lookup. destruct (decide _); [|done].
  unfold live_keys. by apply map_lookup_filter_Some.
Qed.

Lemma released_lookup_ne (tokenKey k : string) (tk : gmap string Z) :
  k ≠ tokenKey → released tokenKey tk !! k = tk !! k.
Proof. intros Hne. unfold released. by rewrite lookup_insert_ne. Qed.

(** X1.  [cleanTokenStyle] never changes the count of a key other than
    the one it releases: such a key keeps its count or is deleted, and a
    key with a positive count is always kept. *)
Theorem cleanTokenStyle_other_keys (tokenKey instId : string) (g : Globals) (k : string) :
  k ≠ tokenKey →
  (tokenKeys (cleanTokenStyle tokenKey instId g) !! k = None ∨
   tokenKeys (cleanTokenStyle tokenKey instId g) !! k = tokenKeys g !! k) ∧
  ∀ c, tokenKeys g !! k = Some c → 0 < c →
       tokenKeys (cleanTokenStyle tokenKey instId g) !! k = Some c.
Proof.
  intros Hne. split.
  - destruct (tokenKeys (cleanTokenStyle tokenKey instId g) !! k) as [c|] eqn:Hk;
      [|by left].
    right. apply cleanTokenStyle_lookup_Some in Hk.
    by rewrite released_lookup_ne in Hk.
  - intros c Hk Hc. apply cleanTokenStyle_lookup_live; [|done].
    by rewrite released_lookup_ne.
Qed.

(** X2.  Releasing a key that holds a count of at least one keeps every
    count of the registry at or above zero when they were so before. *)
Theorem cleanTokenStyle_keeps_counts_nonnegative
    (tokenKey instId : string) (g : Globals) (c0 : Z) :
  (∀ k c, tokenKeys g !! k = Some c → 0 ≤ c) →
  tokenKeys g !! tokenKey = Some c0 →
  1 ≤ c0 →
  ∀ k c, tokenKeys (cleanTokenStyle tokenKey instId g) !! k = Some c → 0 ≤ c.
Proof.
  intros Hnonneg Hkey Hc0 k c Hk%cleanTokenStyle_lookup_Some.
  destruct (decide (k = tokenKey)) as [->|Hne].
  - unfold released in Hk. rewrite Hkey, lookup_insert_eq in Hk.
    simpl in Hk. injection Hk as <-. lia.
  - rewrite released_lookup_ne in Hk by done. by apply (Hnonneg k).
Qed.


Lemma cleanTokenStyle_document (tokenKey instId : string) (g : Globals) :
  document (cleanTokenStyle tokenKey instId g)
  = if decide (Z.of_nat (size (live_keys (released tokenKey (tokenKeys g))))
               > TOKEN_THRESHOLD)
    then filter (λ el, ¬ swept_style (released tokenKey (tokenKeys g)) instId el)
           <$> document g
    else document g.
Proof.
  pose proof (cleanTokenStyle_result tokenKey instId g) as Hres. cbv zeta in Hres.
  destruct (decide _); by destruct Hres as [_ ->].
Qed.

(** X4.  [cleanTokenStyle] only ever takes style elements away: without a
    document there is still none afterwards, and otherwise the document
    afterwards is a sublist of the one before (no element added, changed
    or moved) that still holds every element owned by another instance
    and every element without a token attribute. *)
Theorem cleanTokenStyle_only_removes_own_styles
    (tokenKey instId : string) (g : Globals) :
  match document g with
  | None => document (cleanTokenStyle tokenKey instId g) = None
  | Some els =>
      ∃ els', document (cleanTokenStyle tokenKey instId g) = Some els' ∧
              els' `sublist_of` els ∧
              ∀ el, el ∈ els →
                    el_instance el ≠ Some instId ∨ el_attrs el !! ATTR_TOKEN = None →
                    el ∈ els'
  end.
Proof.
  rewrite cleanTokenStyle_document.
  destruct (document g) as [els|]; [|by destruct (decide _)].
  destruct (decide _) as [Hlive|Hstale].
  - eexists. split; [done|]. split; [apply sublist_filter|].
    intros el Hel Hother. apply list_elem_of_filter. split; [|done].
    intros [Hinst Hkey]. destruct Hother as [Hother|Hnone]; [done|].
    rewrite Hnone in Hkey. by destruct Hkey.
  - exists els. split; [done|]. split; [done|]. by intros el Hel _.
Qed.


(** X6.  A key that is still in use elsewhere survives a release: with a
    count of two or more the count drops by one and every style element
    recorded for the key stays in the document. *)
Theorem cleanTokenStyle_shared_key_survives
    (tokenKey instId : string) (g : Globals) (c : Z) :
  tokenKeys g !! tokenKey = Some c →
  2 ≤ c →
  tokenKeys (cleanTokenStyle tokenKey instId g) !! tokenKey = Some (c - 1) ∧
  ∀ els el, document g = Some els → el ∈ els →
            el_attrs el !! ATTR_TOKEN = Some tokenKey →
            ∃ els', document (cleanTokenStyle tokenKey instId g) = Some els' ∧ el ∈ els'.
Proof.
  intros Hkey Hc.
  assert (released tokenKey (tokenKeys g) !! tokenKey = Some (c - 1)) as Hrel.
  { unfold released. by rewrite Hkey, lookup_insert_eq. }
  split.
  - apply cleanTokenStyle_lookup_live; [done|lia].
  - intros els el Hdoc Hel Hattr. rewrite cleanTokenStyle_document, Hdoc.
    destruct (decide _); [|by exists els].
    eexists. split; [done|]. apply list_elem_of_filter. split; [|done].
    intros [_ Hswept]. rewrite Hattr in Hswept. simpl in Hswept.
    destruct Hswept as [c' [Hc' Hle]%map_lookup_filter_Some].
    simpl in Hle. assert (c' = c - 1) by congruence. lia.
Qed.







(** X8.  A release followed at once by a record of the same key, when
    that key is the only one in use and is used once, leaves the
    registry and the document exactly as they were: the release is not
    swept, so no style element is removed and none has to be injected
    again. *)
Theorem release_then_record_sole_key (key instId : string) (g : Globals) :
  tokenKeys g !! key = Some 1 →
  (∀ k c, k ≠ key → tokenKeys g !! k = Some c → c ≤ 0) →
  tokenKeys (recordCleanToken key (cleanTokenStyle key instId g)) = tokenKeys g ∧
  document (recordCleanToken key (cleanTokenStyle key instId g)) = document g.
Proof.
  intros Hkey Hothers.
  assert (released key (tokenKeys g) = <[key := 0]> (tokenKeys g)) as Hrel.
  { unfold released. by rewrite Hkey. }
  assert (¬ Z.of_nat (size (live_keys (released key (tokenKeys g)))) > TOKEN_THRESHOLD)
    as Hstale.
  { rewrite live_keys_exceed_iff, Hrel. intros (k & c & Hk & Hc).
    destruct (decide (k = key)) as [->|Hne].
    - rewrite lookup_insert_eq in Hk. injection Hk as <-. lia.
    - rewrite lookup_insert_ne in Hk by done. specialize (Hothers k c Hne Hk). lia. }
  pose proof (cleanTokenStyle_result key instId g) as Hres. cbv zeta in Hres.
  rewrite decide_False in Hres by done. destruct Hres as [Htk Hdoc].
  unfold recordCleanToken. cbn [tokenKeys document with_tokenKeys].
  rewrite Htk, Hdoc, Hrel, lookup_insert_eq, insert_insert_eq. simpl.
  split; [by apply insert_id|done].
Qed.

(** ** Further properties of derivation, injection and removal *)



(** X10.  The commit-time effect tags the style element [updateCSS]
    returns: that element, and no other, gets the theme key of the entry
    as its token attribute and the instance as its owner, keeping its
    text and its other attributes; the registry is left alone. *)
Theorem onCacheEffect_tags_injected_style
    (ctx : StyleContextValue) (cssVar : option CssVar) (cache : TokenCacheValue)
    (g : Globals) (call : UpdateCSSCall) (els els' : list StyleEl) (i : nat)
    (style : StyleEl) :
  injection ctx cssVar cache = Some call →
  document g = Some els →
  updateCSS call els = (i, els') →
  els' !! i = Some style →
  ∃ doc,
    document (onCacheEffect ctx cssVar cache g) = Some doc ∧
    length doc = length els' ∧
    (∃ tagged,
       doc !! i = Some tagged ∧
       style_of (obj_get_string (tcv_token cache) "_themeKey") (instanceId ctx) tagged ∧
       el_css tagged = el_css style ∧
       ∀ a, a ≠ ATTR_TOKEN → el_attrs tagged !! a = el_attrs style !! a) ∧
    (∀ j, j ≠ i → doc !! j = els' !! j) ∧
    tokenKeys (onCacheEffect ctx cssVar cache g) = tokenKeys g.
Proof.
  intros Hcall Hdoc Hupdate Hstyle.
  unfold onCacheEffect. rewrite Hcall, Hdoc, Hupdate.
  eexists. split; [done|]. split; [apply length_alter|]. split; [|split; [|done]].
  - eexists. split.
    + rewrite list_lookup_alter_eq, Hstyle. done.
    + cbn. split; [|split; [done|]].
      * split; [apply lookup_insert_eq|done].
      * intros a Ha. by apply lookup_insert_ne.
  - intros j Hj. by apply list_lookup_alter_ne.
Qed.


(** X12.  Without cssVar, an entry computed from a derived token with
    distinct property names carries no style, and its token is its real
    token with the theme key and the hash identifier added: both hold
    the same token key, and the theme key is that token key. *)
Theorem entry_without_cssVar
    (theme : Theme) (mergedToken override : Obj) (salt : string)
    (formatToken : option (Obj → option Obj))
    (compute : option (Obj → Obj → Theme → option Obj))
    (g gs : Globals) (e : TokenCacheValue) (d : Obj) :
  cacheFn theme mergedToken override salt formatToken compute None g = Some (e, gs) →
  derived_token theme mergedToken override formatToken compute = Some d →
  obj_wf d →
  tcv_cssVarStr e = "" ∧
  tcv_cssVarKey e = "" ∧
  obj_lookup (tcv_realToken e) "_tokenKey" = Some (VStr (token2key d salt)) ∧
  obj_lookup (tcv_token e) "_tokenKey" = Some (VStr (token2key d salt)) ∧
  obj_lookup (tcv_token e) "_themeKey" = Some (VStr (token2key d salt)) ∧
  tcv_token e
  = obj_set (obj_set (tcv_realToken e) "_themeKey" (VStr (token2key d salt)))
            "_hashId" (VStr (tcv_hashId e)).
Proof.
  intros (d' & Hd' & -> & _)%cacheFn_Some Hd Hwf.
  assert (d' = d) as -> by congruence.
  destruct (entry_token_lookups salt None d) as (Hkey & Htheme & _).
  destruct (entry_realToken_lookups salt None d) as (Hreal & _).
  cbv zeta in Hkey. rewrite Hkey, Htheme, Hreal.
  unfold entry_of, theme_key_of. cbn. rewrite obj_spread_id by done. done.
Qed.





(** ** Further properties of the polled hook *)

Lemma first_differs_same_head (args old : list Arg) :
  arg_ref <$> head args = arg_ref <$> head old → first_differs args old = false.
Proof. intros Heq. unfold first_differs. by apply bool_decide_eq_false_2; intros Hne. Qed.

Lemma useCacheToken_unchanged (args : list Arg) (g : Globals) :
  args_changed args g = false →
  useCacheToken args g
  = (g, {| rendered := cachedToken g; renderTimers := [];
           mountTimers := [SetInterval rerenderTime SetCacheUpdate] |}).
Proof. intros Hsame. unfold useCacheToken. by rewrite Hsame. Qed.

Lemma args_changed_after (args : list Arg) (g : Globals) :
  args_changed args (useCacheToken args g).1 = false.
Proof.
  unfold useCacheToken. cbn [fst]. destruct (args_changed args g) eqn:Hchanged.
  - unfold args_changed. cbn [cacheArgs with_cacheArgs].
    apply first_differs_same_head. reflexivity.
  - exact Hchanged.
Qed.

(** X15.  Calling the default export again with the same arguments
    changes nothing and starts no timer while rendering: the globals
    after the second call are those after the first. *)
Theorem useCacheToken_again (args : list Arg) (g : Globals) :
  (useCacheToken args (useCacheToken args g).1).1 = (useCacheToken args g).1 ∧
  renderTimers (useCacheToken args (useCacheToken args g).1).2 = [] ∧
  rendered (useCacheToken args (useCacheToken args g).1).2
  = rendered (useCacheToken args g).2.
Proof.
  rewrite (useCacheToken_unchanged args (useCacheToken args g).1)
    by apply args_changed_after.
  cbn [fst snd renderTimers rendered]. split; [done|]. split; [done|].
  rewrite useCacheToken_rendered. apply useCacheToken_frame.
Qed.

(** X16.  Only the identity of the first argument is compared: while the
    first argument is the object [cacheArgs] already starts with, a call
    with other tokens or another option leaves [cacheArgs] as it is,
    starts no timer, and the poll keeps computing from the old
    arguments. *)
Theorem useCacheToken_same_first_argument
    (args old : list Arg) (g : Globals) (ctx : StyleContextValue) (c : CacheEntity) :
  cacheArgs g = Some old →
  arg_ref <$> head args = arg_ref <$> head old →
  (useCacheToken args g).1 = g ∧
  renderTimers (useCacheToken args g).2 = [] ∧
  PollCacheTokenHelper ctx (c, (useCacheToken args g).1)
  = PollCacheTokenHelper ctx (c, g).
Proof.
  intros Hold Hhead.
  assert (args_changed args g = false) as Hsame.
  { unfold args_changed. rewrite Hold. by apply first_differs_same_head. }
  unfold useCacheToken. cbn [fst snd renderTimers]. by rewrite Hsame.
Qed.

(** X17.  A poller mounted before any consumer does nothing but register
    its setter; the first consumer call then stores its arguments and
    wakes the poller through a 50 ms timeout on that setter, and the
    poller's next render is a render of [PollCacheTokenHelper] on those
    arguments. *)
Theorem first_consumer_wakes_poller
    (ctx : StyleContextValue) (c : CacheEntity) (g : Globals) (args : list Arg) :
  cacheArgs g = None →
  ∃ g1,
    PollCacheToken ctx (c, g)
    = Some ((c, g1), {| rendered := tt; renderTimers := []; mountTimers := [] |}) ∧
    cachedToken g1 = cachedToken g ∧ tokenKeys g1 = tokenKeys g ∧
    document g1 = document g ∧
    renderTimers (useCacheToken args g1).2 = [SetTimeout 50 SetArgUpdate] ∧
    cacheArgs (useCacheToken args g1).1 = Some args ∧
    PollCacheToken ctx (c, (useCacheToken args g1).1)
    = PollCacheTokenHelper ctx (c, (useCacheToken args g1).1).
Proof.
  intros Hnone. exists (with_setArgUpdate (Some SetArgUpdate) g).
  unfold PollCacheToken. cbn [fst snd cacheArgs with_setArgUpdate]. rewrite Hnone.
  split; [done|]. split; [done|]. split; [done|]. split; [done|].
  unfold useCacheToken, args_changed.
  cbn [fst snd cacheArgs with_setArgUpdate with_cacheArgs setArgUpdate renderTimers].
  rewrite Hnone. cbn. done.
Qed.

End TokenCache.

(** ** The hash identifier in the two build modes *)

Lemma length_append (a b : string) :
  String.length (a +:+ b) = (String.length a + String.length b)%nat.
Proof. induction a as [|c a IH]; simpl; [done|]. by rewrite IH. Qed.

Lemma hashId_of_builds_differ (hash : string → string) (NODE_ENV : option string)
    (tokenKey : string) :
  NODE_ENV ≠ Some "production" →
  hashId_of (Some "production") hash tokenKey = "css" +:+ "-" +:+ hash tokenKey ∧
  hashId_of NODE_ENV hash tokenKey
    = "css-dev-only-do-not-override" +:+ "-" +:+ hash tokenKey ∧
  hashId_of (Some "production") hash tokenKey ≠ hashId_of NODE_ENV hash tokenKey.
Proof.
  intros Hdev. unfold hashId_of, hashPrefix.
  rewrite decide_False by (intros Hne; by apply Hne).
  rewrite decide_True by done.
  repeat split. simpl. intros [= Heq].
  apply (f_equal String.length) in Heq.
  rewrite !length_append in Heq. simpl in Heq. lia.
Qed.

(** C10.  The hash identifier of a computed entry is the prefix, a dash
    and the content hash of the entry's token key; the prefix is [css] in
    a production build and [css-dev-only-do-not-override] in any other, so
    for the same inputs (hence the same token key) the two builds yield
    different identifiers. *)
Theorem hashId_prefix_separates_builds
    (hash : string → string) (token2key : Obj → string → string)
    (transformToken : Obj → option string → TransformConfig → Obj * string)
    (NODE_ENV NODE_ENV' : option string)
    (theme : Theme) (mergedToken override : Obj) (salt : string)
    (formatToken : option (Obj → option Obj))
    (compute : option (Obj → Obj → Theme → option Obj))
    (cssVar : option CssVar) (g g' gs gs' : Globals) (e e' : TokenCacheValue) :
  NODE_ENV = Some "production" →
  NODE_ENV' ≠ Some "production" →
  cacheFn NODE_ENV hash token2key transformToken theme mergedToken override salt
          formatToken compute cssVar g = Some (e, gs) →
  cacheFn NODE_ENV' hash token2key transformToken theme mergedToken override salt
          formatToken compute cssVar g' = Some (e', gs') →
  let tokenKey := obj_get_string (tcv_token e) "_tokenKey" in
  obj_get_string (tcv_token e') "_tokenKey" = tokenKey ∧
  tcv_hashId e = "css" +:+ "-" +:+ hash tokenKey ∧
  tcv_hashId e' = "css-dev-only-do-not-override" +:+ "-" +:+ hash tokenKey ∧
  tcv_hashId e ≠ tcv_hashId e'.
Proof.
  intros -> Hdev (d & Hd & -> & _)%cacheFn_Some (d' & Hd' & -> & _)%cacheFn_Some.
  assert (d' = d) as -> by congruence. cbv zeta.
  rewrite !entry_tokenKey_string. unfold entry_of. cbn [tcv_hashId].
  destruct (hashId_of_builds_differ hash NODE_ENV'
              (token2key (css_var_form transformToken cssVar d).1 salt) Hdev)
    as (Hprod & Hother & Hne).
  by rewrite Hprod, Hother in *.
Qed.

(** ** The fixture against the model

    The literal the module starts with has the shape the model gives an
    entry computed without cssVar in a build that is not a production
    build: its hash identifier is the development prefix, a dash and the
    [@emotion/hash] of its token key, its theme key is its token key, its
    two tokens agree on every semantic field, and there is no style to
    extract from it. *)

Lemma fixture_has_shape_of_development_entry :
  obj_lookup fixture_token "_tokenKey" = Some (VStr "mr2whb") ∧
  obj_lookup fixture_token "_themeKey" = obj_lookup fixture_token "_tokenKey" ∧
  obj_lookup fixture_realToken "_tokenKey" = obj_lookup fixture_token "_tokenKey" ∧
  tcv_hashId cachedToken_init = hashId_of None Sample.hash "mr2whb" ∧
  obj_lookup fixture_token "_hashId" = Some (VStr (hashId_of None Sample.hash "mr2whb")) ∧
  semantic_fields fixture_token = semantic_fields fixture_realToken ∧
  obj_wf fixture_token ∧ obj_wf fixture_realToken ∧
  extract Sample.toStyleStr cachedToken_init [] None = None.
Proof.
  repeat match goal with |- _ ∧ _ => split end;
    try (vm_compute; reflexivity); by_computation.
Qed.

(** ** The statements on concrete inputs *)




(** The entry computed for the sample inputs, by build mode and salt. *)
Local Abbreviation sample_cacheFn env salt cssVar g :=
  (cacheFn env Sample.hash Sample.token2key Sample.transformToken
           Sample.theme Sample.mergedToken Sample.override salt None None cssVar g).



Lemma themeKey_is_cssVar_key_or_tokenKey_witness :
  (∃ e gs,
     sample_cacheFn None "5.0" (Some Sample.cssVar) (initial_globals None) = Some (e, gs) ∧
     obj_lookup (tcv_token e) "_themeKey" = Some (VStr "css-var-root") ∧
     tokenKeys gs = <["css-var-root" := 1]> ∅) ∧
  (∃ e gs,
     sample_cacheFn None "5.0" None (initial_globals None) = Some (e, gs) ∧
     obj_lookup (tcv_token e) "_themeKey" = obj_lookup (tcv_token e) "_tokenKey").
Proof.
  split.
  - eexists _, _. split; [reflexivity|].
    exact (themeKey_is_cssVar_key_or_tokenKey None Sample.hash Sample.token2key
             Sample.transformToken Sample.theme Sample.mergedToken Sample.override
             "5.0" None None (Some Sample.cssVar) (initial_globals None) _ _ eq_refl).
  - eexists _, _. split; [reflexivity|].
    exact (proj1 (themeKey_is_cssVar_key_or_tokenKey None Sample.hash Sample.token2key
             Sample.transformToken Sample.theme Sample.mergedToken Sample.override
             "5.0" None None None (initial_globals None) _ _ eq_refl)).
Defined.


Lemma hashId_prefix_separates_builds_witness :
  ∃ e gs e' gs',
    sample_cacheFn (Some "production") "5.0" None (initial_globals None) = Some (e, gs) ∧
    sample_cacheFn (Some "development") "5.0" None (initial_globals None) = Some (e', gs') ∧
    tcv_hashId e = "css-" +:+ Sample.hash (obj_get_string (tcv_token e) "_tokenKey") ∧
    tcv_hashId e'
      = "css-dev-only-do-not-override-"
        +:+ Sample.hash (obj_get_string (tcv_token e) "_tokenKey") ∧
    tcv_hashId e ≠ tcv_hashId e'.
Proof.
  eexists _, _, _, _. split; [reflexivity|]. split; [reflexivity|].
  assert (Some "development" ≠ Some "production") as Hdev by discriminate.
  destruct (hashId_prefix_separates_builds Sample.hash Sample.token2key
              Sample.transformToken (Some "production") (Some "development")
              Sample.theme Sample.mergedToken Sample.override "5.0" None None None
              (initial_globals None) (initial_globals None) _ _ _ _
              eq_refl Hdev eq_refl eq_refl) as (_ & Hprod & Hother & Hne).
  split; [exact Hprod|]. split; [exact Hother|]. exact Hne.
Defined.



(** The sample collaborators for the polled hook. *)
Local Abbreviation sample_PollCacheTokenHelper :=
  (PollCacheTokenHelper Sample.ATTR_TOKEN Sample.ATTR_MARK None Sample.hash
     Sample.flattenToken Sample.token2key Sample.transformToken Sample.updateCSS
     unit Sample.useGlobalCache).


Lemma extract_null_iff_no_style_witness :
  ∃ e gs,
    sample_cacheFn None "5.0" None (initial_globals None) = Some (e, gs) ∧
    extract Sample.toStyleStr e [] None = None.
Proof.
  eexists _, _. split; [reflexivity|].
  exact (proj2 (proj2 (proj2
           (extract_null_iff_no_style None Sample.hash Sample.token2key
              Sample.transformToken Sample.toStyleStr _ [] [] None)))
           Sample.theme Sample.mergedToken Sample.override "5.0" None None
           (initial_globals None) _ eq_refl).
Defined.

(** ** The further properties on concrete inputs *)

Lemma cleanTokenStyle_other_keys_witness :
  "b" ≠ "a" ∧
  tokenKeys (cleanTokenStyle Sample.ATTR_TOKEN "a" "inst-1" Sample.two_keys) !! "b"
  = Some 2.
Proof.
  assert ("b" ≠ "a") as Hne by discriminate.
  split; [exact Hne|].
  refine (proj2 (cleanTokenStyle_other_keys Sample.ATTR_TOKEN "a" "inst-1"
                   Sample.two_keys "b" Hne) 2 eq_refl _).
  reflexivity.
Defined.

Lemma cleanTokenStyle_keeps_counts_nonnegative_witness :
  map_Forall (λ _ c, 0 ≤ c) (tokenKeys Sample.two_keys) ∧
  tokenKeys Sample.two_keys !! "a" = Some 1 ∧
  map_Forall (λ _ c, 0 ≤ c)
    (tokenKeys (cleanTokenStyle Sample.ATTR_TOKEN "a" "inst-1" Sample.two_keys)).
Proof.
  assert (map_Forall (λ _ c, 0 ≤ c) (tokenKeys Sample.two_keys)) as Hnonneg
    by by_computation.
  split; [exact Hnonneg|]. split; [reflexivity|].
  refine (cleanTokenStyle_keeps_counts_nonnegative Sample.ATTR_TOKEN "a" "inst-1"
            Sample.two_keys 1 Hnonneg eq_refl _).
  discriminate.
Defined.


Lemma cleanTokenStyle_shared_key_survives_witness :
  tokenKeys Sample.two_keys !! "b" = Some 2 ∧
  tokenKeys (cleanTokenStyle Sample.ATTR_TOKEN "b" "inst-1" Sample.two_keys) !! "b"
  = Some 1 ∧
  ∃ els', document (cleanTokenStyle Sample.ATTR_TOKEN "b" "inst-1" Sample.two_keys)
          = Some els' ∧ Sample.style_b ∈ els'.
Proof.
  split; [reflexivity|].
  assert (2 ≤ 2) as Hc by discriminate.
  destruct (cleanTokenStyle_shared_key_survives Sample.ATTR_TOKEN "b" "inst-1"
              Sample.two_keys 2 eq_refl Hc) as [Hcount Hstyles].
  split; [exact Hcount|].
  refine (Hstyles _ Sample.style_b eq_refl _ eq_refl).
  right. left.
Defined.


Lemma release_then_record_sole_key_witness :
  tokenKeys Sample.one_key !! "a" = Some 1 ∧
  tokenKeys (recordCleanToken "a"
               (cleanTokenStyle Sample.ATTR_TOKEN "a" "inst-1" Sample.one_key))
  = tokenKeys Sample.one_key ∧
  document (recordCleanToken "a"
              (cleanTokenStyle Sample.ATTR_TOKEN "a" "inst-1" Sample.one_key))
  = Some [Sample.style_a].
Proof.
  split; [reflexivity|].
  assert (map_Forall (λ k c, k ≠ "a" → c ≤ 0) (tokenKeys Sample.one_key)) as Hothers
    by by_computation.
  exact (release_then_record_sole_key Sample.ATTR_TOKEN "a" "inst-1" Sample.one_key
           eq_refl (λ k c Hne Hk, Hothers k c Hk Hne)).
Defined.


Lemma onCacheEffect_tags_injected_style_witness :
  ∃ e gs call els' i style,
    sample_cacheFn None "5.0" (Some Sample.cssVar) Sample.two_keys = Some (e, gs) ∧
    injection Sample.ATTR_MARK Sample.hash Sample.ctx (Some Sample.cssVar) e = Some call ∧
    Sample.updateCSS call [Sample.style_a; Sample.style_b; Sample.style_a_other]
    = (i, els') ∧
    els' !! i = Some style ∧
    ∃ doc tagged,
      document (onCacheEffect Sample.ATTR_TOKEN Sample.ATTR_MARK Sample.hash
                  Sample.updateCSS Sample.ctx (Some Sample.cssVar) e gs) = Some doc ∧
      doc !! i = Some tagged ∧
      style_of Sample.ATTR_TOKEN "css-var-root" "inst-1" tagged ∧
      el_css tagged = call_css call.
Proof.
  eexists _, _, _, _, _, _.
  split; [reflexivity|]. split; [reflexivity|]. split; [reflexivity|].
  split; [reflexivity|].
  lazymatch goal with
  | |- context [onCacheEffect _ _ _ _ _ _ ?e ?gs] =>
      destruct (onCacheEffect_tags_injected_style Sample.ATTR_TOKEN Sample.ATTR_MARK
                  Sample.hash Sample.updateCSS Sample.ctx (Some Sample.cssVar)
                  e gs _ _ _ _ _ eq_refl eq_refl eq_refl eq_refl)
        as (doc & Hdoc & _ & (tagged & Htagged & Hstyle & Hcss & _) & _)
  end.
  exists doc, tagged.
  split; [exact Hdoc|]. split; [exact Htagged|]. split; [exact Hstyle|exact Hcss].
Defined.


Lemma entry_without_cssVar_witness :
  ∃ e gs d,
    sample_cacheFn None "5.0" None (initial_globals None) = Some (e, gs) ∧
    derived_token Sample.theme Sample.mergedToken Sample.override None None = Some d ∧
    obj_wf d ∧
    tcv_cssVarStr e = "" ∧
    obj_lookup (tcv_realToken e) "_tokenKey" = obj_lookup (tcv_token e) "_tokenKey" ∧
    obj_lookup (tcv_token e) "_themeKey" = obj_lookup (tcv_token e) "_tokenKey".
Proof.
  eexists _, _, _. split; [reflexivity|]. split; [reflexivity|].
  assert (obj_wf (obj_spread2
                    (obj_set Sample.mergedToken "colorPrimaryHover" (VStr "#4096ff"))
                    Sample.override)) as Hwf by by_computation.
  split; [exact Hwf|].
  destruct (entry_without_cssVar None Sample.hash Sample.token2key
              Sample.transformToken Sample.theme Sample.mergedToken Sample.override
              "5.0" None None (initial_globals None) _ _ _ eq_refl eq_refl Hwf)
    as (Hcss & _ & Hreal & Hkey & Htheme & _).
  split; [exact Hcss|]. split.
  - exact (eq_trans Hreal (eq_sym Hkey)).
  - exact (eq_trans Htheme (eq_sym Hkey)).
Defined.



Lemma useCacheToken_same_first_argument_witness :
  let g := (useCacheToken Sample.args (initial_globals None)).1 in
  cacheArgs g = Some Sample.args ∧
  (useCacheToken Sample.args_other_tokens g).1 = g ∧
  cacheArgs (useCacheToken Sample.args_other_tokens g).1 = Some Sample.args ∧
  renderTimers (useCacheToken Sample.args_other_tokens g).2 = [].
Proof.
  intros g. split; [reflexivity|].
  destruct (useCacheToken_same_first_argument Sample.ATTR_TOKEN Sample.ATTR_MARK None
              Sample.hash Sample.flattenToken Sample.token2key Sample.transformToken
              Sample.updateCSS unit Sample.useGlobalCache
              Sample.args_other_tokens Sample.args g Sample.ctx tt eq_refl eq_refl)
    as (Hsame & Htimers & _).
  split; [exact Hsame|]. split; [|exact Htimers].
  exact (f_equal cacheArgs Hsame).
Defined.

Lemma first_consumer_wakes_poller_witness :
  cacheArgs (initial_globals None) = None ∧
  ∃ g1,
    PollCacheToken Sample.ATTR_TOKEN Sample.ATTR_MARK None Sample.hash
      Sample.flattenToken Sample.token2key Sample.transformToken Sample.updateCSS
      unit Sample.useGlobalCache Sample.ctx (tt, initial_globals None)
    = Some ((tt, g1), {| rendered := tt; renderTimers := []; mountTimers := [] |}) ∧
    cachedToken g1 = cachedToken_init ∧
    renderTimers (useCacheToken Sample.args g1).2 = [SetTimeout 50 SetArgUpdate] ∧
    cacheArgs (useCacheToken Sample.args g1).1 = Some Sample.args.
Proof.
  split; [reflexivity|].
  destruct (first_consumer_wakes_poller Sample.ATTR_TOKEN Sample.ATTR_MARK None
              Sample.hash Sample.flattenToken Sample.token2key Sample.transformToken
              Sample.updateCSS unit Sample.useGlobalCache Sample.ctx tt
              (initial_globals None) Sample.args eq_refl)
    as (g1 & Hpoll & Hcached & _ & _ & Htimer & Hargs & _).
  exists g1. split; [exact Hpoll|]. split; [exact Hcached|].
  split; [exact Htimer|exact Hargs].
Defined.
